(** * Sales controller: stock reconciliation and the frequently-sold report

    A shallow embedding of [controllers/salesController.js].  The handlers
    [createSale], [updateSale], [deleteSale] and [getFrequentlySoldItems]
    are written over an explicit model of the three collections they touch
    (sales, items, users), of the calls they await on the store, and of the
    [Date] arithmetic that bounds the three report windows.  The two read
    handlers [getAllSales] and [getSaleById] and the router of
    [routes/attendanceRoutes.js] follow in modules of their own.

    Numbers are the integers of the data model: JavaScript and the store
    add them exactly as long as they stay below 2^53, and no bound is
    modelled. *)

From stdpp Require Import gmap strings list fin_maps.
From Stdlib Require Import ZArith Lia Permutation.

(** ** The [Date] built-in (ECMA-262, section "Date Objects")

    A time value is a number of milliseconds since the epoch, held in [Z].
    The range check of TimeClip is not part of the model: the clock values a
    server reads are far inside it.  The local time zone [tza] gives the
    offset from UTC in force at each instant, so that daylight-saving
    transitions and changes of the standard offset are part of the model. *)
Module EcmaDate.
Local Open Scope Z_scope.

Definition msPerDay : Z := 86400000.

Definition Day (t : Z) : Z := t / msPerDay.

Definition TimeWithinDay (t : Z) : Z := t mod msPerDay.

Definition DaysInYear (y : Z) : Z :=
  if negb (y mod 4 =? 0) then 365
  else if negb (y mod 100 =? 0) then 366
  else if negb (y mod 400 =? 0) then 365
  else 366.

Definition DayFromYear (y : Z) : Z :=
  365 * (y - 1970) + (y - 1969) / 4 - (y - 1901) / 100 + (y - 1601) / 400.

Definition TimeFromYear (y : Z) : Z := msPerDay * DayFromYear y.

(** The largest year whose first day is not after [t]: a first guess from
    the mean length of a year, off by at most one. *)
Definition YearFromTime (t : Z) : Z :=
  let d := Day t in
  let c := 1970 + (400 * d) / 146097 in
  if DayFromYear (c + 1) <=? d then c + 1
  else if DayFromYear c <=? d then c
  else c - 1.

Definition InLeapYear (t : Z) : Z :=
  if DaysInYear (YearFromTime t) =? 366 then 1 else 0.

Definition DayWithinYear (t : Z) : Z := Day t - DayFromYear (YearFromTime t).

Definition MonthFromTime (t : Z) : Z :=
  let d := DayWithinYear t in
  let l := InLeapYear t in
  if d <? 31 then 0
  else if d <? 59 + l then 1
  else if d <? 90 + l then 2
  else if d <? 120 + l then 3
  else if d <? 151 + l then 4
  else if d <? 181 + l then 5
  else if d <? 212 + l then 6
  else if d <? 243 + l then 7
  else if d <? 273 + l then 8
  else if d <? 304 + l then 9
  else if d <? 334 + l then 10
  else 11.

Definition DateFromTime (t : Z) : Z :=
  let d := DayWithinYear t in
  let l := InLeapYear t in
  match MonthFromTime t with
  | 0 => d + 1
  | 1 => d - 30
  | 2 => d - 58 - l
  | 3 => d - 89 - l
  | 4 => d - 119 - l
  | 5 => d - 150 - l
  | 6 => d - 180 - l
  | 7 => d - 211 - l
  | 8 => d - 242 - l
  | 9 => d - 272 - l
  | 10 => d - 303 - l
  | _ => d - 333 - l
  end.

(** Day number, within its year, of the first day of month [mn] (0..11);
    [l] is 1 in a leap year and 0 otherwise. *)
Definition MonthStartDay (mn l : Z) : Z :=
  match mn with
  | 0 => 0
  | 1 => 31
  | 2 => 59 + l
  | 3 => 90 + l
  | 4 => 120 + l
  | 5 => 151 + l
  | 6 => 181 + l
  | 7 => 212 + l
  | 8 => 243 + l
  | 9 => 273 + l
  | 10 => 304 + l
  | _ => 334 + l
  end.

(** MakeDay: months outside 0..11 carry into the year, and a date outside
    the month runs over into the neighbouring months. *)
Definition MakeDay (year month date : Z) : Z :=
  let ym := year + month / 12 in
  let mn := month mod 12 in
  let l := if DaysInYear ym =? 366 then 1 else 0 in
  DayFromYear ym + MonthStartDay mn l + date - 1.

Definition MakeDate (day time : Z) : Z := day * msPerDay + time.

(** [LocalTZA(t, isUTC)]: the offset of local time from UTC, in
    milliseconds.  With [isUTC] it is the offset in force at the instant
    [t]; without, [t] is a local time value and the result is the offset by
    which the zone reads it (at a transition, where a local time is skipped
    or repeated, the offset before the transition).  The function is the
    host's: a zone is any such function. *)
Definition TimeZone : Type := Z -> bool -> Z.

(** A zone without transitions: the same offset at all times. *)
Definition fixed_zone (offset : Z) : TimeZone := fun _ _ => offset.

(** No two offsets of the zone are more than [d] milliseconds apart. *)
Definition zone_spread (tza : TimeZone) (d : Z) : Prop :=
  forall (t t' : Z) (b b' : bool), tza t b - tza t' b' <= d.

Definition LocalTime (tza : TimeZone) (t : Z) : Z := t + tza t true.

Definition UTC (tza : TimeZone) (t : Z) : Z := t - tza t false.

(** [Date.prototype.getDate], [getMonth], [getFullYear]. *)
Definition getDate (tza : TimeZone) (tv : Z) : Z :=
  DateFromTime (LocalTime tza tv).

Definition getMonth (tza : TimeZone) (tv : Z) : Z :=
  MonthFromTime (LocalTime tza tv).

Definition getFullYear (tza : TimeZone) (tv : Z) : Z :=
  YearFromTime (LocalTime tza tv).

(** [Date.prototype.setDate], [setMonth], [setFullYear], each returning the
    new time value of the date object. *)
Definition setDate (tza : TimeZone) (tv dt : Z) : Z :=
  let t := LocalTime tza tv in
  UTC tza (MakeDate (MakeDay (YearFromTime t) (MonthFromTime t) dt)
                    (TimeWithinDay t)).

Definition setMonth (tza : TimeZone) (tv month : Z) : Z :=
  let t := LocalTime tza tv in
  UTC tza (MakeDate (MakeDay (YearFromTime t) month (DateFromTime t))
                    (TimeWithinDay t)).

Definition setFullYear (tza : TimeZone) (tv year : Z) : Z :=
  let t := LocalTime tza tv in
  UTC tza (MakeDate (MakeDay year (MonthFromTime t) (DateFromTime t))
                    (TimeWithinDay t)).

End EcmaDate.

(** ** Documents and collections

    An ObjectId is a 96-bit number, held in [N]. *)
Module Store.

Abbreviation oid := N (only parsing).

(** Modelled from the spec: the Item schema ([models/Item.js]) is not among
    the sources.  An item has a name, a stock counter that may go negative,
    a supplier and a reorder level; its [_id] is its key in the
    collection. *)
Record Item := mkItem {
  item_name : string;
  stock : Z;
  supplier : string;
  reorder_level : Z
}.

(** Modelled from the spec: the Sale schema ([models/Sale.js]) is not among
    the sources.  A sale has an id, the user who made it, a date and an
    ordered sequence of line items, each an item reference with an integer
    quantity. *)
Record LineItem := mkLineItem {
  item_id : oid;
  quantity : Z
}.

Record Sale := mkSale {
  sale_id : oid;
  user_id : oid;
  date : Z;
  items : list LineItem
}.

(** Modelled from the spec: the User schema ([models/User.js]) is not among
    the sources.  The controller reads the [name] of a user and nothing
    else. *)
Record User := mkUser {
  name : string
}.

(** The body of a create request: [date] may be left out. *)
Record SaleInput := mkSaleInput {
  in_user_id : oid;
  in_date : option Z;
  in_items : list LineItem
}.

(** The body of an update request.  [req.body] goes to the store as sent,
    and the store reads it as an update document: plain fields replace the
    stored ones, update operators ([$set], [$inc], [$push], [$pull],
    [$currentDate], ...) compute the new fields from the stored document and
    from the clock.  The model keeps what the document does: a function from
    the clock and the stored sale to the updated sale.  A body the store
    refuses (a field that does not cast, a change of [_id]) is a rejected
    call of the schedule below. *)
Definition SaleUpdate : Type := Z -> Sale -> Sale.

(** A body of plain fields, [{ user_id: u, date: d, items: l }] with any of
    the three left out: the fields it carries are replaced. *)
Definition replace_fields (u : option oid) (d : option Z)
    (l : option (list LineItem)) : SaleUpdate :=
  fun _ s =>
    mkSale (sale_id s) (default (user_id s) u) (default (date s) d)
           (default (items s) l).

(** The body [{ $push: { items: li } }]: one more line item at the end. *)
Definition push_item (li : LineItem) : SaleUpdate :=
  fun _ s => mkSale (sale_id s) (user_id s) (date s) (items s ++ [li]).

(** The body [{ $currentDate: { date: true } }]. *)
Definition current_date : SaleUpdate :=
  fun now s => mkSale (sale_id s) (user_id s) now (items s).

(** The world a request runs in: the three collections, the outcome of the
    store calls still to come ([None]: the call goes through, [Some msg]: it
    rejects with an error carrying [msg]; a call past the end of the schedule
    goes through), the server clock, its time zone and the ObjectId
    generator. *)
Record World := mkWorld {
  Sales : gmap N Sale;
  Items : gmap N Item;
  Users : gmap N User;
  faults : list (option string);
  clock : Z;
  LocalTZA : EcmaDate.TimeZone;
  next_oid : oid
}.

Definition with_Sales (m : gmap N Sale) (w : World) : World :=
  mkWorld m (Items w) (Users w) (faults w) (clock w) (LocalTZA w) (next_oid w).

Definition with_Items (m : gmap N Item) (w : World) : World :=
  mkWorld (Sales w) m (Users w) (faults w) (clock w) (LocalTZA w) (next_oid w).

Definition with_faults (fs : list (option string)) (w : World) : World :=
  mkWorld (Sales w) (Items w) (Users w) fs (clock w) (LocalTZA w) (next_oid w).

Definition with_next_oid (n : oid) (w : World) : World :=
  mkWorld (Sales w) (Items w) (Users w) (faults w) (clock w) (LocalTZA w) n.

(** *** Awaited computations: state passing with exceptions *)

Inductive Outcome (A : Type) : Type :=
| Value (a : A)
| Thrown (message : string).
Arguments Value {A} a.
Arguments Thrown {A} message.

Definition Async (A : Type) : Type := World -> Outcome A * World.

Definition ret {A} (a : A) : Async A := fun w => (Value a, w).

Definition throw {A} (message : string) : Async A :=
  fun w => (Thrown message, w).

Definition bind {A B} (c : Async A) (k : A -> Async B) : Async B :=
  fun w =>
    match c w with
    | (Value a, w') => k a w'
    | (Thrown message, w') => (Thrown message, w')
    end.

Declare Scope async_scope.
Delimit Scope async_scope with async.
Notation "x <- c ;; k" := (bind c (fun x => k))
  (at level 100, c at next level, right associativity) : async_scope.
Notation "c ;; k" := (bind c (fun _ => k))
  (at level 100, right associativity) : async_scope.
Local Open Scope async_scope.

(** [for (const x of l) { await body(x) }] *)
Fixpoint for_of {A} (l : list A) (body : A -> Async unit) : Async unit :=
  match l with
  | [] => ret tt
  | x :: l' => body x ;; for_of l' body
  end.

(** One round trip to the store: it goes through or rejects, as the
    schedule says.  Rejections stand for every way a Mongoose call can
    fail (validation, cast, driver). *)
Definition store_call : Async unit :=
  fun w =>
    let w' := with_faults (tail (faults w)) w in
    match head (faults w) with
    | Some (Some message) => (Thrown message, w')
    | _ => (Value tt, w')
    end.

(** *** The Mongoose calls of the controller *)

(** Modelled from the spec: the Sale schema ([models/Sale.js]) is not among
    the sources.  [new Sale(req.body)] takes the fields as given, draws a
    fresh [_id] and defaults [date] to the creation time. *)
Definition new_Sale (body : SaleInput) : Async Sale :=
  fun w =>
    (Value (mkSale (next_oid w) (in_user_id body)
                   (default (clock w) (in_date body)) (in_items body)),
     with_next_oid (N.succ (next_oid w)) w).

(** [sale.save()] of a new document: an insert, rejected on a duplicate
    [_id]. *)
Definition save (sale : Sale) : Async unit :=
  store_call ;;
  fun w =>
    match Sales w !! sale_id sale with
    | Some _ => (Thrown "E11000 duplicate key error", w)
    | None => (Value tt, with_Sales (<[sale_id sale := sale]> (Sales w)) w)
    end.

(** The update document [{ $inc: { stock: delta } }]. *)
Definition inc_stock (delta : Z) (it : Item) : Item :=
  mkItem (item_name it) (stock it + delta) (supplier it) (reorder_level it).

(** [Item.findByIdAndUpdate(id, { $inc: { stock: delta } })]: one atomic
    update of the matching document; resolves to the document as it was,
    or to [null] when none matches, in which case nothing is written. *)
Definition Item_findByIdAndUpdate_inc (id : oid) (delta : Z)
  : Async (option Item) :=
  store_call ;;
  fun w =>
    (Value (Items w !! id),
     with_Items (alter (inc_stock delta) id (Items w)) w).

(** The document after the update [u], made at time [now]: [_id] is
    immutable, the other fields are what the update makes of them. *)
Definition apply_update (u : SaleUpdate) (now : Z) (s : Sale) : Sale :=
  let s' := u now s in
  mkSale (sale_id s) (user_id s') (date s') (items s').

(** [Sale.findByIdAndUpdate(id, body, { new: true })]: resolves to the
    updated document, or to [null]. *)
Definition Sale_findByIdAndUpdate (id : oid) (u : SaleUpdate)
  : Async (option Sale) :=
  store_call ;;
  fun w =>
    match Sales w !! id with
    | Some s =>
        let s' := apply_update u (clock w) s in
        (Value (Some s'), with_Sales (<[id := s']> (Sales w)) w)
    | None => (Value None, w)
    end.

(** [Sale.findByIdAndDelete(id)]: resolves to the removed document, or to
    [null]. *)
Definition Sale_findByIdAndDelete (id : oid) : Async (option Sale) :=
  store_call ;;
  fun w => (Value (Sales w !! id), with_Sales (delete id (Sales w)) w).

End Store.

(** ** The controller *)
Module SalesController.
Import EcmaDate Store.
Local Open Scope async_scope.
Local Open Scope Z_scope.

(** A row of the report, as sent to the client. *)
Record ReportEntry := mkReportEntry {
  entry_id : oid;
  entry_item_name : string;
  entry_totalQuantitySold : Z;
  entry_stock : Z;
  entry_supplier : string;
  entry_reorder_level : Z;
  user_name : string
}.

Inductive Json :=
| JSale (sale : Sale)
| JMessage (message : string)
| JReport (weekly monthly yearly : list ReportEntry).

(** [res.status(code).json(body)] *)
Record Response := mkResponse {
  status : Z;
  json : Json
}.

(** [try { ... } catch (error) { ... error.message ... }] around a handler
    body. *)
Definition try_catch (body : Async Response) (handler : string -> Response)
  : World -> Response * World :=
  fun w =>
    match body w with
    | (Value r, w') => (r, w')
    | (Thrown message, w') => (handler message, w')
    end.

Definition createSale (body : SaleInput) : World -> Response * World :=
  try_catch
    (sale <- new_Sale body ;;
     save sale ;;
     for_of (items sale) (fun soldItem =>
       Item_findByIdAndUpdate_inc (item_id soldItem) (- quantity soldItem) ;;
       ret tt) ;;
     ret (mkResponse 201 (JSale sale)))
    (fun error => mkResponse 400 (JMessage error)).

Definition updateSale (id : oid) (body : SaleUpdate)
  : World -> Response * World :=
  try_catch
    (sale <- Sale_findByIdAndUpdate id body ;;
     match sale with
     | None => ret (mkResponse 404 (JMessage "Sale not found"))
     | Some sale => ret (mkResponse 200 (JSale sale))
     end)
    (fun error => mkResponse 400 (JMessage error)).

Definition deleteSale (id : oid) : World -> Response * World :=
  try_catch
    (sale <- Sale_findByIdAndDelete id ;;
     match sale with
     | None => ret (mkResponse 404 (JMessage "Sale not found"))
     | Some sale =>
         for_of (items sale) (fun soldItem =>
           Item_findByIdAndUpdate_inc (item_id soldItem) (quantity soldItem) ;;
           ret tt) ;;
         ret (mkResponse 200 (JMessage "Sale deleted"))
     end)
    (fun error => mkResponse 500 (JMessage error)).

(** *** The aggregation pipeline of the report *)

(** A sale after [{ $unwind: "$items" }]: one document per line item. *)
Record Unwound := mkUnwound {
  u_sale_id : oid;
  u_user_id : oid;
  u_date : Z;
  u_items : LineItem
}.

Definition unwind (docs : list Sale) : list Unwound :=
  flat_map (fun s => mkUnwound (sale_id s) (user_id s) (date s) <$> items s)
           docs.

(** [{ $match: { date: { $gte: bound } } }] *)
Definition match_date_gte (bound : Z) (docs : list Unwound) : list Unwound :=
  filter (fun d => bound <= u_date d) docs.

(** The [_id] of the [$group] stage:
    [{ item_id: "$items.item_id", user_id: "$user_id" }]. *)
Definition group_id (d : Unwound) : oid * oid :=
  (item_id (u_items d), u_user_id d).

(** [{ $group: { _id: ..., totalQuantitySold: { $sum: "$items.quantity" } } }]:
    one accumulator per distinct [_id]. *)
Definition group_sum (docs : list Unwound) : gmap (N * N) Z :=
  foldr (fun d acc =>
           let total := default 0 (acc !! group_id d) in
           <[group_id d := total + quantity (u_items d)]> acc)
        ∅ docs.

(** A grouped row after the [$project] stage. *)
Record Row := mkRow {
  row_item_id : oid;
  row_user_id : oid;
  totalQuantitySold : Z
}.

(** The rows of one facet; the store fixes no order among them. *)
Definition facet (bound : Z) (docs : list Unwound) : list Row :=
  (fun kv => mkRow (fst (fst kv)) (snd (fst kv)) (snd kv))
    <$> map_to_list (group_sum (match_date_gte bound docs)).

Record Facets := mkFacets {
  weekly : list Row;
  monthly : list Row;
  yearly : list Row
}.

Definition pipeline (pastWeek pastMonth pastYear : Z) (docs : list Sale)
  : Facets :=
  let unwound := unwind docs in
  mkFacets (facet pastWeek unwound) (facet pastMonth unwound)
           (facet pastYear unwound).

(** [Sale.aggregate([...])] over the whole collection. *)
Definition Sale_aggregate (pastWeek pastMonth pastYear : Z) : Async Facets :=
  store_call ;;
  fun w =>
    (Value (pipeline pastWeek pastMonth pastYear
                     (snd <$> map_to_list (Sales w))), w).

(** A row after [Sale.populate]: each reference is replaced by the document
    it resolves to (with its [_id]), or by [null]. *)
Record PopulatedRow := mkPopulatedRow {
  pop_item : option (oid * Item);
  pop_user : option User;
  pop_total : Z
}.

Definition populate_row (w : World) (r : Row) : PopulatedRow :=
  mkPopulatedRow (pair (row_item_id r) <$> Items w !! row_item_id r)
                 (Users w !! row_user_id r)
                 (totalQuantitySold r).

Definition Sale_populate (rows : list Row) : Async (list PopulatedRow) :=
  store_call ;;
  fun w => (Value (populate_row w <$> rows), w).

(** [x || d] on strings: the empty string is falsy, as is [undefined]. *)
Definition or_string (x : option string) (d : string) : string :=
  match x with
  | Some EmptyString => d
  | Some s => s
  | None => d
  end.

(** [results.map(f)] with a callback that may throw. *)
Fixpoint array_map {A B} (f : A -> Async B) (l : list A) : Async (list B) :=
  match l with
  | [] => ret []
  | x :: l' => y <- f x ;; ys <- array_map f l' ;; ret (y :: ys)
  end.

(** The message of the TypeError raised by reading a property of [null]. *)
Definition null_property_error : string :=
  "Cannot read properties of null (reading '_id')".

(** The callback of [formatResults]: reading [item.item_id._id] of a row
    whose item is [null] is a TypeError. *)
Definition format_row (item : PopulatedRow) : Async ReportEntry :=
  match pop_item item with
  | None => throw null_property_error
  | Some (id, it) =>
      ret (mkReportEntry id (item_name it) (pop_total item) (stock it)
                         (supplier it) (reorder_level it)
                         (or_string (name <$> pop_user item) "Unknown"))
  end.

Definition formatResults (results : list PopulatedRow)
  : Async (list ReportEntry) :=
  array_map format_row results.

(** The three lower bounds, from the clock reading [now]. *)
Definition pastWeek (tza : TimeZone) (now : Z) : Z :=
  setDate tza now (getDate tza now - 7).

Definition pastMonth (tza : TimeZone) (now : Z) : Z :=
  setMonth tza now (getMonth tza now - 1).

Definition pastYear (tza : TimeZone) (now : Z) : Z :=
  setFullYear tza now (getFullYear tza now - 1).

(** [new Date()] *)
Definition new_Date : Async Z := fun w => (Value (clock w), w).

Definition local_tza : Async TimeZone := fun w => (Value (LocalTZA w), w).

Definition getFrequentlySoldItems : World -> Response * World :=
  try_catch
    (now <- new_Date ;;
     tza <- local_tza ;;
     frequentlySoldItems <-
       Sale_aggregate (pastWeek tza now) (pastMonth tza now)
                      (pastYear tza now) ;;
     populated_weekly <- Sale_populate (weekly frequentlySoldItems) ;;
     populated_monthly <- Sale_populate (monthly frequentlySoldItems) ;;
     populated_yearly <- Sale_populate (yearly frequentlySoldItems) ;;
     formatted_weekly <- formatResults populated_weekly ;;
     formatted_monthly <- formatResults populated_monthly ;;
     formatted_yearly <- formatResults populated_yearly ;;
     ret (mkResponse 200
            (JReport formatted_weekly formatted_monthly formatted_yearly)))
    (fun error => mkResponse 500 (JMessage error)).

End SalesController.

(** ** Functions used to state the properties *)
Module Reconcile.
Import Store SalesController.
Local Open Scope async_scope.
Local Open Scope Z_scope.

(** The stock loop shared by [createSale] and [deleteSale], with the signed
    quantity [delta] it passes to [$inc]. *)
Definition stock_loop (delta : LineItem -> Z) (l : list LineItem)
  : Async unit :=
  for_of l (fun soldItem =>
    Item_findByIdAndUpdate_inc (item_id soldItem) (delta soldItem) ;; ret tt).

(** The item collection after the updates of [l], one after the other. *)
Definition apply_deltas (delta : LineItem -> Z) (l : list LineItem)
  (m : gmap N Item) : gmap N Item :=
  foldl (fun acc li => alter (inc_stock (delta li)) (item_id li) acc) m l.

(** What the updates of [l] add up to for item [id]. *)
Definition total_delta (delta : LineItem -> Z) (id : N) (l : list LineItem)
  : Z :=
  foldr (fun li acc => (if decide (item_id li = id) then delta li else 0) + acc)
        0 l.

Definition stock_of (w : World) (id : N) : option Z :=
  stock <$> Items w !! id.

(** The sale document [createSale] builds from a request body. *)
Definition sale_of (w : World) (body : SaleInput) : Sale :=
  mkSale (next_oid w) (in_user_id body) (default (clock w) (in_date body))
         (in_items body).

End Reconcile.

(** ** Functions used to state the properties of the report *)
Module ReportSpec.
Import EcmaDate Store SalesController.
Local Open Scope Z_scope.

Inductive Window := Weekly | Monthly | Yearly.

Definition lower_bound (tza : TimeZone) (now : Z) (win : Window) : Z :=
  match win with
  | Weekly => pastWeek tza now
  | Monthly => pastMonth tza now
  | Yearly => pastYear tza now
  end.

Definition window_rows (F : Facets) (win : Window) : list Row :=
  match win with
  | Weekly => weekly F
  | Monthly => monthly F
  | Yearly => yearly F
  end.

(** The facets the handler asks for when the clock reads [now]. *)
Definition report_facets (tza : TimeZone) (now : Z) (docs : list Sale)
  : Facets :=
  pipeline (pastWeek tza now) (pastMonth tza now) (pastYear tza now) docs.

(** The quantities of the unwound documents of group [k], added up. *)
Definition sum_quantity (k : N * N) (docs : list Unwound) : Z :=
  foldr (fun d acc =>
           (if decide (group_id d = k) then quantity (u_items d) else 0) + acc)
        0 docs.

(** The total a list of rows shows for the pair (item [i], user [u]);
    0 when it has no row for the pair. *)
Definition facet_total (rows : list Row) (i u : N) : Z :=
  foldr (fun r acc =>
           (if decide ((row_item_id r, row_user_id r) = (i, u))
            then totalQuantitySold r else 0) + acc)
        0 rows.

(** A line item contributes [q] to the rows of a window: with it the rows
    [rows] have a row for its pair, and the total of the pair is [q] above
    what it is in the rows [rows'] computed without the line item. *)
Definition contributes (rows rows' : list Row) (i u : N) (q : Z) : Prop :=
  (exists t, mkRow i u t ∈ rows) /\
  facet_total rows i u = facet_total rows' i u + q.

(** The entry [formatResults] builds for a populated row whose item is
    there. *)
Definition entry_of (p : PopulatedRow) : option ReportEntry :=
  match pop_item p with
  | None => None
  | Some (id, it) =>
      Some (mkReportEntry id (item_name it) (pop_total p) (stock it)
                          (supplier it) (reorder_level it)
                          (or_string (name <$> pop_user p) "Unknown"))
  end.

End ReportSpec.

(** ** Sample data: the worked examples of the specification *)
Module Examples.
Import Store SalesController.
Local Open Scope Z_scope.

(** The clock of the examples: 2026-11-02T00:00:00Z. *)
Definition ex_now : Z := 1793577600000.

(** The zone of the examples: UTC itself. *)
Definition utc : EcmaDate.TimeZone := EcmaDate.fixed_zone 0.

Definition item_A : Item := mkItem "A" 10 "Acme" 2.

Definition item_B : Item := mkItem "B" 5 "Acme" 1.

Definition ex_items : gmap N Item := <[1%N := item_A]> (<[2%N := item_B]> ∅).

Definition ex_users : gmap N User := <[7%N := mkUser "U1"]> ∅.

(** An empty sale collection and a store that answers every call. *)
Definition ex_world : World :=
  mkWorld ∅ ex_items ex_users [] ex_now utc 100%N.

(** [{ user_id: U1, items: [(A,3), (B,2)] }] *)
Definition ex_body : SaleInput :=
  mkSaleInput 7%N None [mkLineItem 1%N 3; mkLineItem 2%N 2].

(** The same world with a store that accepts the insert of the sale and
    rejects the first stock update. *)
Definition ex_world_rejecting : World :=
  mkWorld ∅ ex_items ex_users [None; Some "connection lost"] ex_now utc
          100%N.

(** A line item for an item that is not in the collection. *)
Definition ex_body_missing : SaleInput :=
  mkSaleInput 7%N None [mkLineItem 1%N 3; mkLineItem 9%N 4].

(** A sale dated 3 days before [ex_now], and one dated 40 days before it:
    item A, quantity 4, user U1. *)
Definition ex_sale_3_days : Sale :=
  mkSale 100%N 7%N (ex_now - 3 * EcmaDate.msPerDay) [mkLineItem 1%N 4].

Definition ex_sale_40_days : Sale :=
  mkSale 101%N 7%N (ex_now - 40 * EcmaDate.msPerDay) [mkLineItem 1%N 4].

(** The same sales without their line item. *)
Definition ex_sale_3_days_empty : Sale :=
  mkSale 100%N 7%N (ex_now - 3 * EcmaDate.msPerDay) [].

Definition ex_sale_40_days_empty : Sale :=
  mkSale 101%N 7%N (ex_now - 40 * EcmaDate.msPerDay) [].

(** Two users selling item A. *)
Definition ex_sale_other_user : Sale :=
  mkSale 102%N 8%N (ex_now - 2 * EcmaDate.msPerDay) [mkLineItem 1%N 5].

(** A sale by a user whose [name] is the empty string. *)
Definition ex_world_empty_name : World :=
  mkWorld (<[100%N := ex_sale_3_days]> ∅) ex_items (<[7%N := mkUser ""]> ∅)
          [] ex_now utc 101%N.

(** A zone with daylight saving, on the rules of New York in 2026: five
    hours behind UTC, and four from 8 March 07:00 UTC to 1 November 06:00
    UTC.  Read as local times, the saving period runs from 8 March 03:00 (the
    hour before it is skipped) to 1 November 02:00 (the hour before it comes
    twice). *)
Definition ex_zone_dst : EcmaDate.TimeZone :=
  fun t isUTC =>
    let first := if isUTC then 1772953200000 else 1772938800000 in
    let last := if isUTC then 1793512800000 else 1793498400000 in
    if (first <=? t) && (t <? last) then - 4 * 3600000 else - 5 * 3600000.

(** Noon in that zone two days after the clocks went forward:
    2026-03-10T16:00:00Z. *)
Definition ex_now_dst : Z := 1773158400000.

(** A sale dated 6 days, 23 hours and 30 minutes before [ex_now_dst], and
    the same sale without its line item. *)
Definition ex_sale_7_days_dst : Sale :=
  mkSale 103%N 7%N (ex_now_dst - 7 * EcmaDate.msPerDay + 1800000)
         [mkLineItem 1%N 4].

Definition ex_sale_7_days_dst_empty : Sale :=
  mkSale 103%N 7%N (ex_now_dst - 7 * EcmaDate.msPerDay + 1800000) [].

(** The entry of the report for item A sold 4 times, under a user name. *)
Definition ex_entry (user : string) : ReportEntry :=
  mkReportEntry 1%N "A" 4 10 "Acme" 2 user.

(** A sale of an item that is no longer in the item collection. *)
Definition ex_world_item_gone : World :=
  mkWorld (<[100%N := mkSale 100%N 7%N (ex_now - 3 * EcmaDate.msPerDay)
                              [mkLineItem 9%N 4]]> ∅)
          ex_items ex_users [] ex_now utc 101%N.

End Examples.

(** ** The two read handlers *)
Module SalesReads.
Import Store SalesController.
Local Open Scope async_scope.
Local Open Scope Z_scope.

(** A line item after [populate("items.item_id")]: the reference is
    replaced by the item it resolves to (with its [_id]), or by [null]. *)
Record PopulatedLineItem := mkPopulatedLineItem {
  line_item : option (oid * Item);
  line_quantity : Z
}.

(** The [user_id] of a sale that is sent out: the reference as stored, or,
    after [populate("user_id", "name")], the [_id] and [name] of the user
    it resolves to, or [null]. *)
Inductive UserField :=
| UserRef (id : oid)
| UserDoc (doc : option (oid * User)).

Record PopulatedSale := mkPopulatedSale {
  populated_id : oid;
  populated_user : UserField;
  populated_date : Z;
  populated_items : list PopulatedLineItem
}.

Definition populate_line (w : World) (li : LineItem) : PopulatedLineItem :=
  mkPopulatedLineItem (pair (item_id li) <$> Items w !! item_id li)
                      (quantity li).

(** [.populate("items.item_id")] *)
Definition populate_items (w : World) (s : Sale) : PopulatedSale :=
  mkPopulatedSale (sale_id s) (UserRef (user_id s)) (date s)
                  (populate_line w <$> items s).

(** [.populate("items.item_id").populate("user_id", "name")] *)
Definition populate_items_and_user (w : World) (s : Sale) : PopulatedSale :=
  mkPopulatedSale (sale_id s)
                  (UserDoc (pair (user_id s) <$> Users w !! user_id s))
                  (date s) (populate_line w <$> items s).

(** [await Sale.find().populate("items.item_id").populate("user_id", "name")] *)
Definition Sale_find_populated : Async (list PopulatedSale) :=
  store_call ;;
  fun w =>
    (Value (populate_items_and_user w <$> (snd <$> map_to_list (Sales w))), w).

(** [await Sale.findById(id).populate("items.item_id")] *)
Definition Sale_findById_populated (id : oid) : Async (option PopulatedSale) :=
  store_call ;;
  fun w => (Value (populate_items w <$> Sales w !! id), w).

Inductive ReadJson :=
| JSales (sales : list PopulatedSale)
| JPopulatedSale (sale : PopulatedSale)
| JReadMessage (message : string).

Record ReadResponse := mkReadResponse {
  read_status : Z;
  read_json : ReadJson
}.

Definition try_catch_read (body : Async ReadResponse)
  (handler : string -> ReadResponse) : World -> ReadResponse * World :=
  fun w =>
    match body w with
    | (Value r, w') => (r, w')
    | (Thrown message, w') => (handler message, w')
    end.

Definition getAllSales : World -> ReadResponse * World :=
  try_catch_read
    (sales <- Sale_find_populated ;;
     ret (mkReadResponse 200 (JSales sales)))
    (fun error => mkReadResponse 500 (JReadMessage error)).

Definition getSaleById (id : oid) : World -> ReadResponse * World :=
  try_catch_read
    (sale <- Sale_findById_populated id ;;
     match sale with
     | None => ret (mkReadResponse 404 (JReadMessage "Sale not found"))
     | Some sale => ret (mkReadResponse 200 (JPopulatedSale sale))
     end)
    (fun error => mkReadResponse 500 (JReadMessage error)).

End SalesReads.

(** ** The quantities committed by the stored sales *)
Module Ledger.
Import Store SalesController Reconcile.
Local Open Scope Z_scope.

(** The quantity of item [id] on the line items of the sales in [l]. *)
Definition sold_in (id : N) (l : list Sale) : Z :=
  foldr (fun s acc => total_delta quantity id (items s) + acc) 0 l.

(** The quantity of item [id] on all the stored sales. *)
Definition sold_total (w : World) (id : N) : Z :=
  sold_in id (snd <$> map_to_list (Sales w)).

(** What item [id] has in stock plus what the stored sales hold of it;
    nothing for an item that is not in the collection. *)
Definition ledger (w : World) (id : N) : option Z :=
  (fun s => s + sold_total w id) <$> stock_of w id.

End Ledger.

(** ** The attendance router ([routes/attendanceRoutes.js])

    The nine routes in the order they are registered, and the way an
    Express router with default options picks the handler of a request:
    the layers are tried in order; a path pattern is matched without
    regard to case, with an optional trailing slash, a parameter taking
    one non-empty segment; a parameter that cannot be percent-decoded is
    an error that stops every later route from matching.  The handlers
    live in [controllers/attendanceController.js] and are names here; a
    path is the list of its segments, the texts that follow each slash.
    OPTIONS requests, which the router answers itself, are left out. *)
Module AttendanceRoutes.
Import Stdlib.Strings.Ascii.

Inductive Method := GET | HEAD | POST | PUT | DELETE | PATCH.

Inductive Handler :=
| checkIn
| checkOut
| requestLeave
| approveLeave
| getAttendanceByEmployee
| getAllAttendance
| getAttendanceByShiftId
| getCurrentShiftAttendance
| getAttendanceInMonth.

Inductive Segment :=
| Lit (text : string)
| Param (name : string).

Record Route := mkRoute {
  route_method : Method;
  route_path : list Segment;
  route_handler : Handler
}.

Definition router : list Route :=
  [ mkRoute POST [Lit "checkin"] checkIn;
    mkRoute POST [Lit "checkout"] checkOut;
    mkRoute POST [Lit "leave"] requestLeave;
    mkRoute PUT [Lit "approve-leave"; Param "attendanceId"] approveLeave;
    mkRoute GET [Lit "employee"; Param "employeeId"] getAttendanceByEmployee;
    mkRoute GET [] getAllAttendance;
    mkRoute GET [Lit "shift"; Param "shiftId"] getAttendanceByShiftId;
    mkRoute GET [Lit "current-shift"] getCurrentShiftAttendance;
    mkRoute GET [Lit "monthly"; Param "year"; Param "month"]
            getAttendanceInMonth ].

(** A route registered with [router.get] also takes HEAD requests. *)
Definition handles (registered request : Method) : bool :=
  match request, registered with
  | GET, GET | HEAD, GET | HEAD, HEAD | POST, POST | PUT, PUT
  | DELETE, DELETE | PATCH, PATCH => true
  | _, _ => false
  end.

Definition lower_ascii (c : ascii) : ascii :=
  let n := N_of_ascii c in
  if ((65 <=? n) && (n <=? 90))%N then ascii_of_N (n + 32) else c.

Fixpoint lower (s : string) : string :=
  match s with
  | EmptyString => EmptyString
  | String c s' => String (lower_ascii c) (lower s')
  end.

(** The segments of a path: the texts that follow each of its slashes. *)
Fixpoint split_on_slash (s : string) : list string :=
  match s with
  | EmptyString => [EmptyString]
  | String c s' =>
      if bool_decide (c = "/"%char) then EmptyString :: split_on_slash s'
      else match split_on_slash s' with
           | [] => [String c EmptyString]
           | x :: xs => String c x :: xs
           end
  end.

Definition segments (path : string) : list string :=
  tail (split_on_slash path).

(** One segment against one element of a pattern: the captured text of a
    parameter, under its name. *)
Definition seg_match (p : Segment) (s : string)
  : option (list (string * string)) :=
  match p with
  | Lit text => if bool_decide (lower s = lower text) then Some [] else None
  | Param name => if bool_decide (s = EmptyString) then None
                  else Some [(name, s)]
  end.

Fixpoint exact_match (pat : list Segment) (segs : list string)
  : option (list (string * string)) :=
  match pat, segs with
  | [], [] => Some []
  | p :: pat', s :: segs' =>
      match seg_match p s, exact_match pat' segs' with
      | Some c, Some cs => Some (c ++ cs)
      | _, _ => None
      end
  | _, _ => None
  end.

(** The path without the slash it may end with. *)
Definition strip_slash (segs : list string) : list string :=
  match last segs with
  | Some EmptyString => removelast segs
  | _ => segs
  end.

(** The pattern against the whole path, the trailing slash being
    optional. *)
Definition path_match (pat : list Segment) (segs : list string)
  : option (list (string * string)) :=
  match exact_match pat segs with
  | Some c => Some c
  | None => if bool_decide (last segs = Some EmptyString)
            then exact_match pat (removelast segs) else None
  end.

(** An element of a pattern that no empty segment can match: a parameter,
    or a literal that is not empty. *)
Definition needs_text (p : Segment) : bool :=
  match p with
  | Lit text => negb (bool_decide (lower text = EmptyString))
  | Param _ => true
  end.

Inductive LayerMatch :=
| NoMatch
| Matched (params : list (string * string))
| DecodeError.

Inductive Dispatch :=
| Invoke (handler : Handler) (params : list (string * string))
| BadRequest
| FallThrough.

Section Router.

(** [decodeURIComponent], with [None] for the URIError of a malformed
    text. *)
Variable decodeURIComponent : string -> option string.

Definition decode_params (caps : list (string * string))
  : option (list (string * string)) :=
  mapM (fun c => pair (fst c) <$> decodeURIComponent (snd c)) caps.

Definition layer_match (pat : list Segment) (segs : list string)
  : LayerMatch :=
  match path_match pat segs with
  | None => NoMatch
  | Some caps =>
      match decode_params caps with
      | Some params => Matched params
      | None => DecodeError
      end
  end.

(** The loop of the router over its layers; [layerError] is set once a
    layer could not decode its parameters. *)
Fixpoint handle (stack : list Route) (m : Method) (segs : list string)
  (layerError : bool) : Dispatch :=
  match stack with
  | [] => if layerError then BadRequest else FallThrough
  | r :: stack' =>
      match layer_match (route_path r) segs with
      | NoMatch => handle stack' m segs layerError
      | DecodeError => handle stack' m segs true
      | Matched params =>
          if layerError then handle stack' m segs layerError
          else if handles (route_method r) m
               then Invoke (route_handler r) params
               else handle stack' m segs layerError
      end
  end.

Definition dispatch (m : Method) (path : string) : Dispatch :=
  handle router m (segments path) false.

(** What the router does with a request whose path matches route [r] with
    the captured texts [caps], were [r] the only route. *)
Definition outcome (r : Route) (m : Method) (caps : list (string * string))
  : Dispatch :=
  match decode_params caps with
  | None => BadRequest
  | Some params =>
      if handles (route_method r) m then Invoke (route_handler r) params
      else FallThrough
  end.

End Router.

End AttendanceRoutes.

Module EcmaDateFacts.
Import EcmaDate.
Local Open Scope Z_scope.

Lemma DayFromYear_succ y : DayFromYear (y + 1) = DayFromYear y + DaysInYear y.
Proof.
  unfold DayFromYear, DaysInYear.
  repeat match goal with
         | |- context [?a =? ?b] =>
             destruct (Z.eqb_spec a b); simpl negb; cbv iota
         end; Z.div_mod_to_equations; lia.
Qed.

Lemma YearFromTime_spec t :
  DayFromYear (YearFromTime t) <= Day t < DayFromYear (YearFromTime t + 1).
Proof.
  unfold YearFromTime. set (d := Day t). clearbody d.
  cbv zeta.
  repeat match goal with
         | |- context [?a <=? ?b] => destruct (Z.leb_spec a b)
         end; unfold DayFromYear in *; Z.div_mod_to_equations; lia.
Qed.

Lemma DayFromYear_mono y1 y2 : y1 <= y2 -> DayFromYear y1 <= DayFromYear y2.
Proof. unfold DayFromYear. intros H. Z.div_mod_to_equations. lia. Qed.

(** [YearFromTime t] is the year whose days include [Day t], and the only
    one. *)
Lemma YearFromTime_unique t y :
  DayFromYear y <= Day t < DayFromYear (y + 1) -> YearFromTime t = y.
Proof.
  intros H. pose proof (YearFromTime_spec t) as Hs.
  destruct (Z.lt_trichotomy (YearFromTime t) y) as [Hlt | [Heq | Hgt]];
    [| done |].
  - pose proof (DayFromYear_mono (YearFromTime t + 1) y). lia.
  - pose proof (DayFromYear_mono (y + 1) (YearFromTime t)). lia.
Qed.

(** The definition of ECMA-262: the largest [y] with
    [TimeFromYear y <= t]. *)
Lemma YearFromTime_largest t :
  TimeFromYear (YearFromTime t) <= t /\
  forall y, TimeFromYear y <= t -> y <= YearFromTime t.
Proof.
  pose proof (YearFromTime_spec t) as Hs.
  assert (forall y, TimeFromYear y <= t <-> DayFromYear y <= Day t) as Hd.
  { intros y. unfold TimeFromYear, Day, msPerDay.
    Z.div_mod_to_equations. lia. }
  split; [apply Hd; lia |].
  intros y Hy. apply Hd in Hy.
  destruct (Z.le_gt_cases y (YearFromTime t)) as [| Hgt]; [done |].
  pose proof (DayFromYear_mono (YearFromTime t + 1) y). lia.
Qed.

Lemma DaysInYear_cases y : DaysInYear y = 365 \/ DaysInYear y = 366.
Proof.
  unfold DaysInYear.
  repeat match goal with
         | |- context [?a =? ?b] =>
             destruct (Z.eqb_spec a b); simpl negb; cbv iota
         end; auto.
Qed.

Lemma DaysInYear_pred_leap y : DaysInYear (y - 1) = 366 -> DaysInYear y = 365.
Proof.
  unfold DaysInYear.
  repeat match goal with
         | |- context [?a =? ?b] =>
             destruct (Z.eqb_spec a b); simpl negb; cbv iota
         end; intros; try reflexivity; try discriminate;
    Z.div_mod_to_equations; lia.
Qed.

Lemma DayFromYear_pred y :
  DayFromYear (y - 1) = DayFromYear y - DaysInYear (y - 1).
Proof.
  pose proof (DayFromYear_succ (y - 1)) as H.
  replace (y - 1 + 1) with y in H by lia. lia.
Qed.

Lemma DayWithinYear_range t :
  0 <= DayWithinYear t < DaysInYear (YearFromTime t).
Proof.
  unfold DayWithinYear.
  pose proof (YearFromTime_spec t) as H.
  rewrite DayFromYear_succ in H. lia.
Qed.

Lemma InLeapYear_cases t :
  (InLeapYear t = 0 /\ DaysInYear (YearFromTime t) = 365) \/
  (InLeapYear t = 1 /\ DaysInYear (YearFromTime t) = 366).
Proof.
  unfold InLeapYear.
  destruct (DaysInYear_cases (YearFromTime t)) as [E | E]; rewrite E; auto.
Qed.

(** Case analysis on the month table of [MonthFromTime] and [DateFromTime]. *)
Ltac month_cases :=
  repeat match goal with
         | |- context [?a <? ?b] => destruct (Z.ltb_spec a b); cbv iota beta
         end.

Lemma MonthFromTime_range t : 0 <= MonthFromTime t <= 11.
Proof. unfold MonthFromTime. cbv zeta. month_cases; lia. Qed.

(** Re-assembling the calendar fields of [t], with the date moved by [k]
    days, gives the day [k] days away. *)
Lemma MakeDay_shift_date t k :
  MakeDay (YearFromTime t) (MonthFromTime t) (DateFromTime t + k) = Day t + k.
Proof.
  pose proof (DayWithinYear_range t) as Hr.
  destruct (InLeapYear_cases t) as [[El Ed] | [El Ed]];
    unfold MakeDay, DateFromTime, MonthFromTime; cbv zeta; rewrite El;
    month_cases;
    rewrite ?Z.div_small, ?Z.mod_small by lia;
    rewrite (Z.add_0_r (YearFromTime t)), Ed; simpl;
    unfold DayWithinYear in *; lia.
Qed.

(** The definition of MakeDay in ECMA-262: the day of the time value
    whose year is [y], whose month is [mn] and whose date is 1, moved by
    [date - 1]. *)
Lemma MakeDay_first_of_month y mn :
  0 <= mn <= 11 ->
  let t := MakeDate (MakeDay y mn 1) 0 in
  YearFromTime t = y /\ MonthFromTime t = mn /\ DateFromTime t = 1.
Proof.
  intros Hmn t.
  assert (Day t = MakeDay y mn 1) as Hday.
  { subst t. unfold MakeDate, Day, msPerDay. rewrite Z.add_0_r.
    by rewrite Z.div_mul. }
  assert (mn / 12 = 0 /\ mn mod 12 = mn) as [Hq Hr]
    by (Z.div_mod_to_equations; lia).
  assert (MakeDay y mn 1 =
          DayFromYear y
          + MonthStartDay mn (if DaysInYear y =? 366 then 1 else 0)) as Hmk.
  { unfold MakeDay. cbv zeta. rewrite Hq, Hr, Z.add_0_r. lia. }
  assert (0 <= MonthStartDay mn (if DaysInYear y =? 366 then 1 else 0)
            < DaysInYear y) as Hrange.
  { destruct (DaysInYear_cases y) as [E | E]; rewrite E; simpl;
      assert (mn = 0 \/ mn = 1 \/ mn = 2 \/ mn = 3 \/ mn = 4 \/ mn = 5 \/
              mn = 6 \/ mn = 7 \/ mn = 8 \/ mn = 9 \/ mn = 10 \/ mn = 11)
        as Hc by lia;
      repeat (destruct Hc as [-> | Hc]); try subst mn; simpl; lia. }
  assert (YearFromTime t = y) as Hy.
  { apply YearFromTime_unique. rewrite Hday, Hmk, DayFromYear_succ. lia. }
  assert (DayWithinYear t =
          MonthStartDay mn (if DaysInYear y =? 366 then 1 else 0)) as Hdw.
  { unfold DayWithinYear. rewrite Hy, Hday, Hmk. lia. }
  split; [done |].
  unfold DateFromTime, MonthFromTime, InLeapYear. cbv zeta.
  rewrite Hy, Hdw.
  assert (mn = 0 \/ mn = 1 \/ mn = 2 \/ mn = 3 \/ mn = 4 \/ mn = 5 \/
          mn = 6 \/ mn = 7 \/ mn = 8 \/ mn = 9 \/ mn = 10 \/ mn = 11)
    as Hc by lia.
  destruct (DaysInYear_cases y) as [E | E]; rewrite E;
    repeat (destruct Hc as [-> | Hc]); try subst mn; by vm_compute.
Qed.

(** Evaluate the carries [(m - 1) / 12] and [(m - 1) mod 12] of a literal
    month and the literal entry of the month table. *)
Ltac calendar_norm t :=
  repeat match goal with
         | |- context [(?a - 1) / 12] =>
             let v := eval compute in ((a - 1) / 12) in
             change ((a - 1) / 12) with v
         | |- context [(?a - 1) mod 12] =>
             let v := eval compute in ((a - 1) mod 12) in
             change ((a - 1) mod 12) with v
         | |- context [?a / 12] =>
             let v := eval compute in (a / 12) in
             change (a / 12) with v
         | |- context [?a mod 12] =>
             let v := eval compute in (a mod 12) in
             change (a mod 12) with v
         end;
  cbv beta iota delta [MonthStartDay];
  try replace (YearFromTime t + -1) with (YearFromTime t - 1) by lia;
  try replace (YearFromTime t - 1 + 0) with (YearFromTime t - 1) by lia;
  try replace (YearFromTime t + 0) with (YearFromTime t) by lia.

(** One month back lands 28 to 31 days earlier. *)
Lemma MakeDay_prev_month t :
  Day t - 31 <= MakeDay (YearFromTime t) (MonthFromTime t - 1) (DateFromTime t)
            <= Day t - 28.
Proof.
  pose proof (DayWithinYear_range t) as Hr.
  pose proof (DayFromYear_pred (YearFromTime t)) as Hp.
  destruct (DaysInYear_cases (YearFromTime t - 1)) as [Ep | Ep];
  destruct (InLeapYear_cases t) as [[El Ed] | [El Ed]];
    unfold MakeDay, DateFromTime, MonthFromTime; cbv zeta; rewrite El;
    month_cases; calendar_norm t; rewrite ?Ed, ?Ep;
    cbv iota beta delta [Z.eqb Pos.eqb];
    unfold DayWithinYear in *; lia.
Qed.

(** One year back lands 365 or 366 days earlier. *)
Lemma MakeDay_prev_year t :
  Day t - 366 <= MakeDay (YearFromTime t - 1) (MonthFromTime t) (DateFromTime t)
             <= Day t - 365.
Proof.
  pose proof (DayWithinYear_range t) as Hr.
  pose proof (DayFromYear_pred (YearFromTime t)) as Hp.
  pose proof (DaysInYear_pred_leap (YearFromTime t)) as Hl.
  destruct (DaysInYear_cases (YearFromTime t - 1)) as [Ep | Ep];
  destruct (InLeapYear_cases t) as [[El Ed] | [El Ed]];
    try (rewrite Ep, Ed in Hl; specialize (Hl eq_refl); discriminate Hl);
    unfold MakeDay, DateFromTime, MonthFromTime; cbv zeta; rewrite El;
    month_cases; calendar_norm t; rewrite ?Ed, ?Ep;
    cbv iota beta delta [Z.eqb Pos.eqb];
    unfold DayWithinYear in *; lia.
Qed.

Lemma MakeDate_shift t k :
  MakeDate (Day t + k) (TimeWithinDay t) = t + k * msPerDay.
Proof.
  unfold MakeDate, Day, TimeWithinDay.
  pose proof (Z.div_mod t msPerDay) as H. unfold msPerDay in *. lia.
Qed.

Lemma MakeDate_between t d lo hi :
  Day t - hi <= d <= Day t - lo ->
  t - hi * msPerDay <= MakeDate d (TimeWithinDay t) <= t - lo * msPerDay.
Proof.
  intros Hd. unfold MakeDate, Day, TimeWithinDay in *.
  pose proof (Z.div_mod t msPerDay) as H. unfold msPerDay in *. nia.
Qed.

Lemma zone_spread_fixed offset : zone_spread (fixed_zone offset) 0.
Proof. intros t t' b b'. unfold fixed_zone. lia. Qed.

Lemma zone_spread_nonneg tza d : zone_spread tza d -> 0 <= d.
Proof. intros H. specialize (H 0 0 true true). lia. Qed.

Lemma zone_spread_abs tza d t t' b b' :
  zone_spread tza d -> - d <= tza t b - tza t' b' <= d.
Proof.
  intros H. pose proof (H t t' b b'). pose proof (H t' t b' b). lia.
Qed.

(** [d.setDate(d.getDate() - k)] moves the local date back by exactly [k]
    days: the time value moves back by [k] days and by the change of the
    offset between the two ends. *)
Lemma setDate_back tza tv k :
  setDate tza tv (getDate tza tv - k) =
  tv - k * msPerDay
  + (tza tv true - tza (LocalTime tza tv - k * msPerDay) false).
Proof.
  unfold setDate, getDate, UTC.
  set (t := LocalTime tza tv).
  replace (DateFromTime t - k) with (DateFromTime t + - k) by lia.
  rewrite MakeDay_shift_date, MakeDate_shift.
  replace (t + - k * msPerDay) with (t - k * msPerDay) by lia.
  unfold t at 1. unfold LocalTime. lia.
Qed.

Lemma setDate_back_spread tza d tv k :
  zone_spread tza d ->
  tv - k * msPerDay - d <= setDate tza tv (getDate tza tv - k)
                        <= tv - k * msPerDay + d.
Proof.
  intros Hd. rewrite setDate_back.
  pose proof (zone_spread_abs tza d tv (LocalTime tza tv - k * msPerDay)
                true false Hd).
  lia.
Qed.

(** [d.setMonth(d.getMonth() - 1)] moves the local date back by 28 to 31
    days, and the time value by as much, up to the change of the offset. *)
Lemma setMonth_back tza d tv :
  zone_spread tza d ->
  tv - 31 * msPerDay - d <= setMonth tza tv (getMonth tza tv - 1)
                         <= tv - 28 * msPerDay + d.
Proof.
  intros Hd. unfold setMonth, getMonth, UTC.
  set (t := LocalTime tza tv).
  pose proof (MakeDate_between t _ 28 31 (MakeDay_prev_month t)) as H.
  set (l := MakeDate _ _) in *. clearbody l.
  pose proof (zone_spread_abs tza d tv l true false Hd).
  unfold t, LocalTime in H. lia.
Qed.

(** [d.setFullYear(d.getFullYear() - 1)] moves the local date back by 365
    or 366 days, and the time value by as much, up to the change of the
    offset. *)
Lemma setFullYear_back tza d tv :
  zone_spread tza d ->
  tv - 366 * msPerDay - d <= setFullYear tza tv (getFullYear tza tv - 1)
                          <= tv - 365 * msPerDay + d.
Proof.
  intros Hd. unfold setFullYear, getFullYear, UTC.
  set (t := LocalTime tza tv).
  pose proof (MakeDate_between t _ 365 366 (MakeDay_prev_year t)) as H.
  set (l := MakeDate _ _) in *. clearbody l.
  pose proof (zone_spread_abs tza d tv l true false Hd).
  unfold t, LocalTime in H. lia.
Qed.

(** Calendar fields and moves of a few dates, among them the ends of
    months and a 29th of February. *)
Example fields_2026_11_02 :
  let utc := fixed_zone 0 in
  (getFullYear utc 1793577600000, getMonth utc 1793577600000,
   getDate utc 1793577600000) = (2026, 10, 2).
Proof. reflexivity. Qed.

Example fields_1969_12_31 :
  let utc := fixed_zone 0 in
  (getFullYear utc (-1), getMonth utc (-1), getDate utc (-1))
  = (1969, 11, 31).
Proof. reflexivity. Qed.

Example fields_2000_02_29 :
  let utc := fixed_zone 0 in
  (getFullYear utc 951782400000, getMonth utc 951782400000,
   getDate utc 951782400000) = (2000, 1, 29).
Proof. reflexivity. Qed.

Example fields_1900_03_01 :
  let utc := fixed_zone 0 in
  (getFullYear utc (-2203891200000), getMonth utc (-2203891200000),
   getDate utc (-2203891200000)) = (1900, 2, 1).
Proof. reflexivity. Qed.

Example fields_in_a_time_zone :
  let cet := fixed_zone 3600000 in
  (getFullYear cet (1793577600000 - 1), getMonth cet (1793577600000 - 1),
   getDate cet (1793577600000 - 1)) = (2026, 10, 2).
Proof. reflexivity. Qed.

(** 2 November 2026 back to 2 October 2026 and to 2 November 2025. *)
Example setMonth_2026_11_02 :
  let utc := fixed_zone 0 in
  setMonth utc 1793577600000 (getMonth utc 1793577600000 - 1)
  = 1790899200000.
Proof. reflexivity. Qed.

Example setFullYear_2026_11_02 :
  let utc := fixed_zone 0 in
  setFullYear utc 1793577600000 (getFullYear utc 1793577600000 - 1)
  = 1762041600000.
Proof. reflexivity. Qed.

(** 31 March 2026: February has no 31st, the date runs over to 3 March. *)
Example setMonth_2026_03_31 :
  let utc := fixed_zone 0 in
  setMonth utc 1774915200000 (getMonth utc 1774915200000 - 1)
  = 1772496000000.
Proof. reflexivity. Qed.

(** 15 January 2026: the month before is December 2025. *)
Example setMonth_2026_01_15 :
  let utc := fixed_zone 0 in
  setMonth utc 1768435200000 (getMonth utc 1768435200000 - 1)
  = 1765756800000.
Proof. reflexivity. Qed.

(** 29 February 2024: 2023 has no such day, the date runs over to
    1 March 2023. *)
Example setFullYear_2024_02_29 :
  let utc := fixed_zone 0 in
  setFullYear utc 1709164800000 (getFullYear utc 1709164800000 - 1)
  = 1677628800000.
Proof. reflexivity. Qed.

End EcmaDateFacts.

(** ** Stock reconciliation *)
Module ReconcileFacts.
Import Store SalesController Reconcile.
Local Open Scope async_scope.
Local Open Scope Z_scope.

Lemma apply_deltas_cons delta li l m :
  apply_deltas delta (li :: l) m =
  apply_deltas delta l (alter (inc_stock (delta li)) (item_id li) m).
Proof. reflexivity. Qed.

(** Each item ends with the sum of the deltas aimed at it; items that are
    not in the collection stay out of it. *)
Lemma apply_deltas_lookup delta l m id :
  apply_deltas delta l m !! id = inc_stock (total_delta delta id l) <$> m !! id.
Proof.
  revert m; induction l as [| li l IH]; intros m.
  - simpl. destruct (m !! id) as [it |]; simpl; [| done].
    f_equal. destruct it; unfold inc_stock; simpl; f_equal; lia.
  - rewrite apply_deltas_cons, IH, lookup_alter. simpl total_delta.
    case_decide; simplify_eq; destruct (m !! _) as [it |]; simpl; try done;
      f_equal; unfold inc_stock; simpl; f_equal; lia.
Qed.

Lemma total_delta_perm delta id l l' :
  l ≡ₚ l' -> total_delta delta id l = total_delta delta id l'.
Proof. induction 1; simpl; lia. Qed.

Lemma total_delta_opp delta id l :
  total_delta (fun li => - delta li) id l = - total_delta delta id l.
Proof. induction l as [| li l IH]; simpl; [done |]. case_decide; lia. Qed.

Lemma total_delta_not_in delta id l :
  id ∉ item_id <$> l -> total_delta delta id l = 0.
Proof.
  induction l as [| li l IH]; simpl; [done |].
  rewrite not_elem_of_cons. intros [Hne Hl].
  rewrite decide_False by done. rewrite IH by done. lia.
Qed.

Lemma total_delta_NoDup delta li l :
  NoDup (item_id <$> l) -> li ∈ l ->
  total_delta delta (item_id li) l = delta li.
Proof.
  induction l as [| x l IH]; simpl.
  - intros _ H. by apply elem_of_nil in H.
  - rewrite NoDup_cons, elem_of_cons. intros [Hx Hnd] [-> | Hin].
    + rewrite decide_True by done. rewrite total_delta_not_in by done. lia.
    + rewrite decide_False.
      * rewrite IH by done. lia.
      * intros E. apply Hx. rewrite E. by apply list_elem_of_fmap_2.
Qed.

Lemma apply_deltas_perm delta l l' m :
  l ≡ₚ l' -> apply_deltas delta l m = apply_deltas delta l' m.
Proof.
  intros Hp. apply map_eq; intros id.
  by rewrite !apply_deltas_lookup, (total_delta_perm _ _ _ _ Hp).
Qed.

(** Undoing the deltas of [l] after applying them gives the collection
    back. *)
Lemma apply_deltas_undo delta l m :
  apply_deltas delta l (apply_deltas (fun li => - delta li) l m) = m.
Proof.
  apply map_eq; intros id.
  rewrite !apply_deltas_lookup, total_delta_opp.
  destruct (m !! id) as [it |]; simpl; [| done].
  f_equal. destruct it; unfold inc_stock; simpl; f_equal; lia.
Qed.

(** *** Running the store calls *)

Lemma world_eta w :
  mkWorld (Sales w) (Items w) (Users w) (faults w) (clock w) (LocalTZA w)
          (next_oid w) = w.
Proof. by destruct w. Qed.

Lemma stock_loop_cons delta li l w :
  stock_loop delta (li :: l) w =
  match head (faults w) with
  | Some (Some message) => (Thrown message, with_faults (tail (faults w)) w)
  | _ =>
      stock_loop delta l
        (with_Items (alter (inc_stock (delta li)) (item_id li) (Items w))
                    (with_faults (tail (faults w)) w))
  end.
Proof.
  unfold stock_loop at 1. simpl for_of. fold (stock_loop delta l).
  unfold bind, Item_findByIdAndUpdate_inc, bind, store_call, ret.
  by destruct (head (faults w)) as [[message |] |].
Qed.

(** A loop that runs to its end has made one call per line item and
    applied every delta. *)
Lemma stock_loop_value delta l w w' :
  stock_loop delta l w = (Value tt, w') ->
  w' = with_faults (drop (length l) (faults w))
                   (with_Items (apply_deltas delta l (Items w)) w).
Proof.
  revert w; induction l as [| li l IH]; intros w.
  - unfold stock_loop; simpl. unfold ret. intros [= <-].
    unfold with_faults, with_Items; simpl. by rewrite world_eta.
  - rewrite stock_loop_cons.
    destruct (faults w) as [| [message |] fs] eqn:Ef; simpl head; simpl tail;
      try discriminate; intros H; apply IH in H; subst w';
      unfold with_faults, with_Items; simpl; f_equal.
    by rewrite drop_nil.
Qed.

(** With no rejection scheduled the loop runs to its end. *)
Lemma stock_loop_healthy delta l w :
  faults w = [] ->
  stock_loop delta l w =
  (Value tt, with_Items (apply_deltas delta l (Items w)) w).
Proof.
  revert w; induction l as [| li l IH]; intros w Hf.
  - unfold stock_loop; simpl. unfold ret, with_Items; simpl.
    by rewrite world_eta.
  - rewrite stock_loop_cons, Hf. simpl head; simpl tail.
    rewrite IH by done. unfold with_faults, with_Items; simpl.
    by rewrite Hf.
Qed.

(** When the call for the line item at position [k] rejects, the loop
    stops there: the deltas before it are applied, those after it are
    not. *)
Lemma stock_loop_thrown delta l w k message rest :
  faults w = replicate k None ++ Some message :: rest ->
  (k < length l)%nat ->
  stock_loop delta l w =
  (Thrown message,
   with_faults rest (with_Items (apply_deltas delta (take k l) (Items w)) w)).
Proof.
  revert l w; induction k as [| k IH]; intros [| li l] w Hf Hk;
    simpl in Hk; try lia; rewrite stock_loop_cons, Hf; simpl head; simpl tail.
  - unfold with_faults, with_Items; simpl. done.
  - erewrite IH; [done | done | lia].
Qed.

(** *** The handlers, call by call *)

Lemma createSale_run body w :
  createSale body w =
  let sale := sale_of w body in
  let w0 := with_faults (tail (faults w))
                        (with_next_oid (N.succ (next_oid w)) w) in
  match head (faults w) with
  | Some (Some message) => (mkResponse 400 (JMessage message), w0)
  | _ =>
      match Sales w !! next_oid w with
      | Some _ => (mkResponse 400 (JMessage "E11000 duplicate key error"), w0)
      | None =>
          match stock_loop (fun li => - quantity li) (in_items body)
                  (with_Sales (<[next_oid w := sale]> (Sales w)) w0) with
          | (Value _, w') => (mkResponse 201 (JSale sale), w')
          | (Thrown message, w') => (mkResponse 400 (JMessage message), w')
          end
      end
  end.
Proof.
  unfold createSale, try_catch, bind, new_Sale, save, bind, store_call.
  simpl. fold (sale_of w body).
  destruct (head (faults w)) as [[message |] |]; try done;
    unfold with_faults at 1, with_next_oid at 1; simpl;
    destruct (Sales w !! next_oid w); try done;
    unfold stock_loop, bind; by destruct (for_of _ _ _) as [[[] | ?] ?].
Qed.

Lemma deleteSale_run id w :
  deleteSale id w =
  let w0 := with_faults (tail (faults w)) w in
  match head (faults w) with
  | Some (Some message) => (mkResponse 500 (JMessage message), w0)
  | _ =>
      match Sales w !! id with
      | None =>
          (mkResponse 404 (JMessage "Sale not found"),
           with_Sales (delete id (Sales w)) w0)
      | Some sale =>
          match stock_loop quantity (items sale)
                  (with_Sales (delete id (Sales w)) w0) with
          | (Value _, w') => (mkResponse 200 (JMessage "Sale deleted"), w')
          | (Thrown message, w') => (mkResponse 500 (JMessage message), w')
          end
      end
  end.
Proof.
  unfold deleteSale, try_catch, bind, Sale_findByIdAndDelete, bind, store_call.
  simpl.
  destruct (head (faults w)) as [[message |] |]; try done;
    unfold with_faults at 1; simpl;
    destruct (Sales w !! id); try done;
    unfold stock_loop, bind; by destruct (for_of _ _ _) as [[[] | ?] ?].
Qed.

Lemma updateSale_run id body w :
  updateSale id body w =
  let w0 := with_faults (tail (faults w)) w in
  match head (faults w) with
  | Some (Some message) => (mkResponse 400 (JMessage message), w0)
  | _ =>
      match Sales w !! id with
      | None => (mkResponse 404 (JMessage "Sale not found"), w0)
      | Some sale =>
          (mkResponse 200 (JSale (apply_update body (clock w) sale)),
           with_Sales (<[id := apply_update body (clock w) sale]> (Sales w)) w0)
      end
  end.
Proof.
  unfold updateSale, try_catch, bind, Sale_findByIdAndUpdate, bind, store_call.
  simpl.
  destruct (head (faults w)) as [[message |] |]; try done;
    unfold with_faults at 1; simpl;
    destruct (Sales w !! id); try done.
Qed.

(** What a 201 response of [createSale] says about the world it leaves. *)
Lemma createSale_created body w sale w1 :
  createSale body w = (mkResponse 201 (JSale sale), w1) ->
  sale = sale_of w body /\
  Sales w !! next_oid w = None /\
  Sales w1 = <[next_oid w := sale]> (Sales w) /\
  Items w1 = apply_deltas (fun li => - quantity li) (in_items body) (Items w).
Proof.
  rewrite createSale_run. cbv zeta.
  destruct (head (faults w)) as [[message |] |]; try discriminate;
    destruct (Sales w !! next_oid w); try discriminate;
    destruct (stock_loop _ _ _) as [[[] | message] w'] eqn:Hl;
    try discriminate; intros [= <- <-];
    apply stock_loop_value in Hl; subst w'; simpl; done.
Qed.

End ReconcileFacts.



(** ** The aggregation of the report *)
Module ReportFacts.
Import EcmaDate Store SalesController ReportSpec.
Local Open Scope Z_scope.

Lemma sum_quantity_cons k d docs :
  sum_quantity k (d :: docs) =
  (if decide (group_id d = k) then quantity (u_items d) else 0)
  + sum_quantity k docs.
Proof. reflexivity. Qed.

Lemma sum_quantity_not_in k docs :
  k ∉ group_id <$> docs -> sum_quantity k docs = 0.
Proof.
  induction docs as [| d docs IH]; [done |].
  rewrite fmap_cons, not_elem_of_cons, sum_quantity_cons. intros [Hne Hk].
  rewrite decide_False by congruence. rewrite IH by done. lia.
Qed.

Lemma sum_quantity_app k l1 l2 :
  sum_quantity k (l1 ++ l2) = sum_quantity k l1 + sum_quantity k l2.
Proof.
  induction l1 as [| d l1 IH]; [done |].
  rewrite <- app_comm_cons, !sum_quantity_cons, IH. lia.
Qed.

Lemma group_sum_cons d docs :
  group_sum (d :: docs) =
  <[group_id d := default 0 (group_sum docs !! group_id d)
                  + quantity (u_items d)]> (group_sum docs).
Proof. reflexivity. Qed.

Lemma facet_total_cons r rows i u :
  facet_total (r :: rows) i u =
  (if decide ((row_item_id r, row_user_id r) = (i, u))
   then totalQuantitySold r else 0)
  + facet_total rows i u.
Proof. reflexivity. Qed.

(** [$group] keeps one accumulator per group that occurs, holding the sum
    of the quantities of the group. *)
Lemma group_sum_lookup docs k :
  group_sum docs !! k =
  if decide (k ∈ group_id <$> docs) then Some (sum_quantity k docs) else None.
Proof.
  induction docs as [| d docs IH].
  - rewrite decide_False by (rewrite fmap_nil; apply not_elem_of_nil).
    apply lookup_empty.
  - rewrite group_sum_cons, fmap_cons, sum_quantity_cons.
    destruct (decide (group_id d = k)) as [<- | Hne].
    + rewrite lookup_insert_eq. rewrite decide_True by apply list_elem_of_here.
      rewrite IH. case_decide as Hin; simpl; f_equal.
      * lia.
      * rewrite sum_quantity_not_in by done. lia.
    + rewrite lookup_insert_ne by done. rewrite IH.
      case_decide as Hin.
      * rewrite decide_True by (by apply list_elem_of_further). done.
      * rewrite decide_False; [done |].
        rewrite not_elem_of_cons. split; [congruence | done].
Qed.

Lemma facet_row_iff bound docs i u t :
  mkRow i u t ∈ facet bound docs <->
  group_sum (match_date_gte bound docs) !! (i, u) = Some t.
Proof.
  unfold facet. rewrite list_elem_of_fmap. split.
  - intros ([[i' u'] t'] & [= -> -> ->] & Hin).
    by apply elem_of_map_to_list in Hin.
  - intros H. exists ((i, u), t). split; [done |].
    by apply elem_of_map_to_list.
Qed.

(** No pair has two rows in a facet. *)
Lemma facet_NoDup bound docs :
  NoDup ((fun r => (row_item_id r, row_user_id r)) <$> facet bound docs).
Proof.
  unfold facet. rewrite <- list_fmap_compose.
  rewrite (list_fmap_ext _ fst).
  - apply NoDup_fst_map_to_list.
  - by intros ? [[] ?] _.
Qed.

Lemma facet_total_perm rows rows' i u :
  rows ≡ₚ rows' -> facet_total rows i u = facet_total rows' i u.
Proof. induction 1; rewrite ?facet_total_cons; try done; lia. Qed.

Lemma facet_total_map_to_list (m : gmap (N * N) Z) i u :
  facet_total ((fun kv => mkRow (fst (fst kv)) (snd (fst kv)) (snd kv))
                 <$> map_to_list m) i u
  = default 0 (m !! (i, u)).
Proof.
  induction m as [| k v m Hk IH] using map_ind.
  - by rewrite map_to_list_empty, lookup_empty.
  - rewrite (facet_total_perm _ _ i u
               (fmap_Permutation _ _ _ (map_to_list_insert m k v Hk))).
    rewrite fmap_cons, facet_total_cons, IH. destruct k as [i' u']; simpl.
    case_decide as E.
    + injection E as -> ->. rewrite lookup_insert_eq, Hk. simpl. lia.
    + rewrite lookup_insert_ne by done. lia.
Qed.

(** The total a facet shows for a pair is the sum of the quantities of the
    pair inside the window. *)
Lemma facet_total_facet bound docs i u :
  facet_total (facet bound docs) i u =
  sum_quantity (i, u) (match_date_gte bound docs).
Proof.
  unfold facet. rewrite facet_total_map_to_list, group_sum_lookup.
  case_decide; simpl; [done |]. by rewrite sum_quantity_not_in.
Qed.

(** A document inside the window adds its quantity to the total of its
    pair, which then has a row. *)
Lemma facet_inside bound l1 d l2 :
  bound <= u_date d ->
  contributes (facet bound (l1 ++ d :: l2)) (facet bound (l1 ++ l2))
              (item_id (u_items d)) (u_user_id d) (quantity (u_items d)).
Proof.
  intros Hd. split.
  - exists (sum_quantity (group_id d) (match_date_gte bound (l1 ++ d :: l2))).
    apply facet_row_iff.
    change (item_id (u_items d), u_user_id d) with (group_id d).
    rewrite group_sum_lookup. apply decide_True.
    apply list_elem_of_fmap_2. unfold match_date_gte.
    apply list_elem_of_filter. split; [done |].
    apply elem_of_app. right. apply list_elem_of_here.
  - rewrite !facet_total_facet.
    change (item_id (u_items d), u_user_id d) with (group_id d).
    unfold match_date_gte.
    rewrite !filter_app, filter_cons_True by done.
    rewrite !sum_quantity_app, sum_quantity_cons.
    rewrite decide_True by done. lia.
Qed.

(** A document outside the window leaves the facet as it is without it. *)
Lemma facet_outside bound l1 d l2 :
  u_date d < bound ->
  facet bound (l1 ++ d :: l2) = facet bound (l1 ++ l2).
Proof.
  intros Hd. unfold facet, match_date_gte.
  rewrite !filter_app, filter_cons_False by lia. done.
Qed.

Lemma unwind_app l1 l2 : unwind (l1 ++ l2) = unwind l1 ++ unwind l2.
Proof. unfold unwind. apply flat_map_app. Qed.

(** Where the unwound document of a line item sits in the unwound
    history. *)
Lemma unwind_line_item pre post id u dt ipre li ipost :
  exists l1 l2,
    unwind (pre ++ mkSale id u dt (ipre ++ li :: ipost) :: post)
      = l1 ++ mkUnwound id u dt li :: l2 /\
    unwind (pre ++ mkSale id u dt (ipre ++ ipost) :: post) = l1 ++ l2.
Proof.
  exists (unwind pre ++ (mkUnwound id u dt <$> ipre)),
         ((mkUnwound id u dt <$> ipost) ++ unwind post).
  rewrite !unwind_app. unfold unwind at 2 5. simpl.
  rewrite !fmap_app, fmap_cons. rewrite <- !app_assoc. simpl. done.
Qed.

Lemma unwind_elem docs s li :
  s ∈ docs -> li ∈ items s ->
  mkUnwound (sale_id s) (user_id s) (date s) li ∈ unwind docs.
Proof.
  intros Hs Hli. apply list_elem_of_In. unfold unwind.
  apply in_flat_map. exists s. split; [by apply list_elem_of_In |].
  apply list_elem_of_In. by apply list_elem_of_fmap_2.
Qed.

Lemma window_rows_report_facets tza now docs win :
  window_rows (report_facets tza now docs) win =
  facet (lower_bound tza now win) (unwind docs).
Proof.
  destruct win; unfold report_facets, pipeline, window_rows, lower_bound;
    cbn [weekly monthly yearly]; reflexivity.
Qed.

(** *** Populating and formatting *)

Lemma format_row_run p w :
  format_row p w =
  (match entry_of p with
   | Some e => Value e
   | None => Thrown null_property_error
   end, w).
Proof.
  unfold format_row, entry_of. by destruct (pop_item p) as [[id it] |].
Qed.

(** [formatResults] gives the entries of all rows, or throws at a row
    whose item is [null]. *)
Lemma formatResults_run pops w :
  formatResults pops w =
  (match mapM entry_of pops with
   | Some es => Value es
   | None => Thrown null_property_error
   end, w).
Proof.
  unfold formatResults. induction pops as [| p pops IH]; [done |].
  simpl array_map. unfold bind at 1. rewrite format_row_run.
  destruct (entry_of p) as [e |] eqn:He; simpl; rewrite ?He; simpl; [| done].
  unfold bind at 1. rewrite IH.
  by destruct (mapM entry_of pops).
Qed.

Lemma Sale_aggregate_run a b c w :
  Sale_aggregate a b c w =
  (match head (faults w) with
   | Some (Some message) => Thrown message
   | _ => Value (pipeline a b c (snd <$> map_to_list (Sales w)))
   end, with_faults (tail (faults w)) w).
Proof.
  unfold Sale_aggregate, bind, store_call.
  by destruct (head (faults w)) as [[message |] |].
Qed.

Lemma Sale_populate_run rows w :
  Sale_populate rows w =
  (match head (faults w) with
   | Some (Some message) => Thrown message
   | _ => Value (populate_row w <$> rows)
   end, with_faults (tail (faults w)) w).
Proof.
  unfold Sale_populate, bind, store_call.
  by destruct (head (faults w)) as [[message |] |].
Qed.

Lemma populate_row_with_faults fs w :
  populate_row (with_faults fs w) = populate_row w.
Proof. reflexivity. Qed.

(** The report is either a 500, or a 200 carrying the entries of the three
    facets, in which case every row of every facet had its item. *)
Lemma getFrequentlySoldItems_cases w :
  let F := report_facets (LocalTZA w) (clock w)
                         (snd <$> map_to_list (Sales w)) in
  (exists message,
     (getFrequentlySoldItems w).1 = mkResponse 500 (JMessage message)) \/
  (exists ew em ey,
     (getFrequentlySoldItems w).1 = mkResponse 200 (JReport ew em ey) /\
     mapM entry_of (populate_row w <$> weekly F) = Some ew /\
     mapM entry_of (populate_row w <$> monthly F) = Some em /\
     mapM entry_of (populate_row w <$> yearly F) = Some ey).
Proof.
  intros F. destruct (getFrequentlySoldItems w) as [r w'] eqn:E.
  unfold getFrequentlySoldItems, try_catch in E.
  unfold bind at 1, new_Date in E. unfold bind at 1, local_tza in E.
  unfold bind at 1 in E. rewrite Sale_aggregate_run in E.
  fold (report_facets (LocalTZA w) (clock w) (snd <$> map_to_list (Sales w)))
    in E.
  fold F in E. clearbody F. cbn [fst].
  destruct (head (faults w)) as [[message |] |];
    [injection E as <- <-; left; by eexists | |];
    (unfold bind at 1 in E; rewrite Sale_populate_run in E;
     destruct (head _) as [[? |] |];
     [injection E as <- <-; left; by eexists | |]);
    (unfold bind at 1 in E; rewrite Sale_populate_run in E;
     destruct (head _) as [[? |] |];
     [injection E as <- <-; left; by eexists | |]);
    (unfold bind at 1 in E; rewrite Sale_populate_run in E;
     destruct (head _) as [[? |] |];
     [injection E as <- <-; left; by eexists | |]);
    rewrite ?populate_row_with_faults in E;
    (unfold bind at 1 in E; rewrite formatResults_run in E;
     destruct (mapM entry_of _) as [ew |];
     [| injection E as <- <-; left; by eexists]);
    (unfold bind at 1 in E; rewrite formatResults_run in E;
     destruct (mapM entry_of _) as [em |];
     [| injection E as <- <-; left; by eexists]);
    (unfold bind at 1 in E; rewrite formatResults_run in E;
     destruct (mapM entry_of _) as [ey |];
     [| injection E as <- <-; left; by eexists]);
    injection E as <- <-; right; by exists ew, em, ey.
Qed.

(** With a store that answers every call, the report is decided by the
    formatting alone. *)
Lemma getFrequentlySoldItems_healthy w :
  faults w = [] ->
  let F := report_facets (LocalTZA w) (clock w)
                         (snd <$> map_to_list (Sales w)) in
  (getFrequentlySoldItems w).1 =
  match mapM entry_of (populate_row w <$> weekly F),
        mapM entry_of (populate_row w <$> monthly F),
        mapM entry_of (populate_row w <$> yearly F) with
  | Some ew, Some em, Some ey => mkResponse 200 (JReport ew em ey)
  | _, _, _ => mkResponse 500 (JMessage null_property_error)
  end.
Proof.
  intros Hf F. destruct (getFrequentlySoldItems w) as [r w'] eqn:E.
  unfold getFrequentlySoldItems, try_catch in E.
  unfold bind at 1, new_Date in E. unfold bind at 1, local_tza in E.
  unfold bind at 1 in E. rewrite Sale_aggregate_run in E.
  fold (report_facets (LocalTZA w) (clock w) (snd <$> map_to_list (Sales w)))
    in E.
  fold F in E. clearbody F. cbn [fst].
  rewrite Hf in E. cbn [head tail] in E.
  do 3 (unfold bind at 1 in E; rewrite Sale_populate_run in E;
        cbn [head tail faults with_faults] in E).
  rewrite ?populate_row_with_faults in E.
  unfold bind at 1 in E; rewrite formatResults_run in E;
    destruct (mapM entry_of _) as [ew |];
    [| by injection E as <- <-];
    unfold bind at 1 in E; rewrite formatResults_run in E;
    destruct (mapM entry_of _) as [em |];
    [| by injection E as <- <-];
    unfold bind at 1 in E; rewrite formatResults_run in E;
    destruct (mapM entry_of _) as [ey |];
    by injection E as <- <-.
Qed.
End ReportFacts.


(** ** The properties of the specification *)

Import Store SalesController Reconcile ReportSpec Examples.
Local Open Scope Z_scope.

(** The worked example of the specification: A and B hold 10 and 5; the
    sale [(A,3), (B,2)] is answered 201 and leaves 7 and 3; its deletion is
    answered "Sale deleted" and leaves 10 and 5 again. *)
Example example_create :
  let r := createSale ex_body ex_world in
  r.1 = mkResponse 201 (JSale (mkSale 100%N 7%N ex_now
                                  [mkLineItem 1%N 3; mkLineItem 2%N 2])) /\
  stock_of r.2 1%N = Some 7 /\ stock_of r.2 2%N = Some 3.
Proof. vm_compute. done. Qed.

Example example_delete :
  let r := deleteSale 100%N (createSale ex_body ex_world).2 in
  r.1 = mkResponse 200 (JMessage "Sale deleted") /\
  stock_of r.2 1%N = Some 10 /\ stock_of r.2 2%N = Some 5 /\
  Sales r.2 !! 100%N = None.
Proof. vm_compute. done. Qed.

(** C1: deleting a sale right after it was created (create answered 201,
    delete answered 200, nothing in between) leaves the item collection, and
    so the stock of each referenced item, exactly as it was before the
    creation. *)
Theorem deleteSale_inverts_createSale
  (w : World) (body : SaleInput) (sale : Sale) (w1 w2 : World) (r : Response) :
  createSale body w = (mkResponse 201 (JSale sale), w1) ->
  deleteSale (sale_id sale) w1 = (r, w2) ->
  status r = 200 ->
  Items w2 = Items w /\
  forall li, li ∈ in_items body ->
    stock_of w2 (item_id li) = stock_of w (item_id li).
Proof.
  intros Hc Hd Hr.
  destruct (ReconcileFacts.createSale_created _ _ _ _ Hc)
    as (Hs & _ & HS & HI).
  assert (Items w2 = Items w) as E;
    [| split; [done | intros; unfold stock_of; by rewrite E]].
  rewrite ReconcileFacts.deleteSale_run in Hd. cbv zeta in Hd.
  assert (Sales w1 !! sale_id sale = Some sale) as Hl.
  { rewrite HS, Hs. apply lookup_insert_eq. }
  rewrite Hl in Hd.
  destruct (head (faults w1)) as [[message |] |];
    try (injection Hd as <- <-; discriminate Hr);
    destruct (stock_loop _ _ _) as [[[] | message] w'] eqn:Hloop;
    injection Hd as <- <-; try discriminate Hr;
    apply ReconcileFacts.stock_loop_value in Hloop; subst w'; simpl;
    rewrite HI, Hs; simpl; apply ReconcileFacts.apply_deltas_undo.
Qed.

Lemma deleteSale_inverts_createSale_witness :
  Items (deleteSale 100%N (createSale ex_body ex_world).2).2 = Items ex_world /\
  forall li, li ∈ in_items ex_body ->
    stock_of (deleteSale 100%N (createSale ex_body ex_world).2).2 (item_id li)
    = stock_of ex_world (item_id li).
Proof.
  apply (deleteSale_inverts_createSale ex_world ex_body
           (sale_of ex_world ex_body) (createSale ex_body ex_world).2 _
           (deleteSale 100%N (createSale ex_body ex_world).2).1).
  - vm_compute. reflexivity.
  - apply surjective_pairing.
  - vm_compute. reflexivity.
Defined.

(** With a store that answers every call, the deletion of a sale that was
    just created does answer 200. *)
Lemma deleteSale_after_createSale_healthy w body sale w1 :
  createSale body w = (mkResponse 201 (JSale sale), w1) ->
  faults w1 = [] ->
  (deleteSale (sale_id sale) w1).1 = mkResponse 200 (JMessage "Sale deleted").
Proof.
  intros Hc Hf.
  destruct (ReconcileFacts.createSale_created _ _ _ _ Hc) as (Hs & _ & HS & _).
  rewrite ReconcileFacts.deleteSale_run. cbv zeta.
  rewrite Hf, HS, Hs. simpl head. rewrite lookup_insert_eq.
  by rewrite ReconcileFacts.stock_loop_healthy.
Qed.

(** C2: after a sale over distinct existing items is created (201), the
    stock of each referenced item is lower by exactly the quantity of its
    line item; and a request with the same line items in another order
    leaves the same item collection. *)
Theorem createSale_decrements_stock
  (w : World) (body : SaleInput) (sale : Sale) (w1 : World) :
  createSale body w = (mkResponse 201 (JSale sale), w1) ->
  NoDup (item_id <$> in_items body) ->
  (forall li, li ∈ in_items body -> is_Some (Items w !! item_id li)) ->
  (forall li, li ∈ in_items body ->
     exists s, stock_of w (item_id li) = Some s /\
               stock_of w1 (item_id li) = Some (s - quantity li)) /\
  (forall body' sale' w1',
     in_items body' ≡ₚ in_items body ->
     createSale body' w = (mkResponse 201 (JSale sale'), w1') ->
     Items w1' = Items w1).
Proof.
  intros Hc Hnd Hex.
  destruct (ReconcileFacts.createSale_created _ _ _ _ Hc) as (_ & _ & _ & HI).
  split.
  - intros li Hli. destruct (Hex li Hli) as [it Hit].
    exists (stock it). unfold stock_of.
    rewrite HI, ReconcileFacts.apply_deltas_lookup, Hit.
    rewrite (ReconcileFacts.total_delta_NoDup _ li) by done.
    split; [done |]. reflexivity.
  - intros body' sale' w1' Hp Hc'.
    destruct (ReconcileFacts.createSale_created _ _ _ _ Hc')
      as (_ & _ & _ & HI').
    rewrite HI, HI'. by apply ReconcileFacts.apply_deltas_perm.
Qed.

Lemma createSale_decrements_stock_witness :
  (forall li, li ∈ in_items ex_body ->
     exists s, stock_of ex_world (item_id li) = Some s /\
               stock_of (createSale ex_body ex_world).2 (item_id li)
               = Some (s - quantity li)) /\
  (forall body' sale' w1',
     in_items body' ≡ₚ in_items ex_body ->
     createSale body' ex_world = (mkResponse 201 (JSale sale'), w1') ->
     Items w1' = Items (createSale ex_body ex_world).2).
Proof.
  apply (createSale_decrements_stock ex_world ex_body
           (sale_of ex_world ex_body) (createSale ex_body ex_world).2).
  - vm_compute. reflexivity.
  - simpl. apply NoDup_cons. split.
    + intros H. apply list_elem_of_singleton in H. discriminate H.
    + apply NoDup_singleton.
  - intros li Hli. simpl in Hli.
    apply elem_of_cons in Hli as [-> | Hli];
      [| apply list_elem_of_singleton in Hli as ->];
      vm_compute; eexists; reflexivity.
Defined.

(** C3: deleting a sale id that is not in the sale collection leaves the
    item collection as it was and makes the lookup call only (no stock
    update is attempted); when that lookup goes through, the answer is
    404 "Sale not found". *)
Theorem deleteSale_not_found (w : World) (id : N) :
  Sales w !! id = None ->
  Items (deleteSale id w).2 = Items w /\
  faults (deleteSale id w).2 = tail (faults w) /\
  ((forall message, head (faults w) <> Some (Some message)) ->
   (deleteSale id w).1 = mkResponse 404 (JMessage "Sale not found")).
Proof.
  intros Hn. rewrite ReconcileFacts.deleteSale_run. cbv zeta. rewrite Hn.
  destruct (head (faults w)) as [[message |] |]; simpl;
    repeat split; try done.
  intros H. by destruct (H message).
Qed.

Lemma deleteSale_not_found_witness :
  Items (deleteSale 42%N ex_world).2 = Items ex_world /\
  faults (deleteSale 42%N ex_world).2 = tail (faults ex_world) /\
  (deleteSale 42%N ex_world).1 = mkResponse 404 (JMessage "Sale not found").
Proof.
  assert (Sales ex_world !! 42%N = None) as Hn by (vm_compute; reflexivity).
  destruct (deleteSale_not_found ex_world 42%N Hn) as (H1 & H2 & H3).
  split; [exact H1 | split; [exact H2 |]].
  apply H3. intros message. simpl. discriminate.
Defined.

(** C4: an update of a sale, whatever the payload and whatever the answer,
    leaves the item collection as it was. *)
Theorem updateSale_keeps_stock (w : World) (id : N) (body : SaleUpdate) :
  Items (updateSale id body w).2 = Items w.
Proof.
  rewrite ReconcileFacts.updateSale_run. cbv zeta.
  by destruct (head (faults w)) as [[message |] |];
    destruct (Sales w !! id).
Qed.

(** The update does replace the line items of an existing sale. *)
Lemma updateSale_replaces_items w id body sale l :
  Sales w !! id = Some sale ->
  faults w = [] ->
  (forall now s, items (body now s) = l) ->
  exists sale',
    (updateSale id body w).1 = mkResponse 200 (JSale sale') /\
    Sales (updateSale id body w).2 !! id = Some sale' /\
    items sale' = l.
Proof.
  intros Hs Hf Hl. rewrite ReconcileFacts.updateSale_run. cbv zeta.
  rewrite Hf, Hs. simpl. eexists. split; [done |].
  rewrite lookup_insert_eq. split; [done |].
  unfold apply_update. simpl. apply Hl.
Qed.

(** C8, as stated, fails: when the first stock update is rejected after the
    sale was inserted, the sale stays in the collection and the answer is
    400, not 500. *)
Lemma createSale_decrement_failure_is_not_500 :
  let r := createSale ex_body ex_world_rejecting in
  Sales r.2 !! 100%N = Some (sale_of ex_world_rejecting ex_body) /\
  r.1 = mkResponse 400 (JMessage "connection lost") /\
  status r.1 <> 500.
Proof. vm_compute. repeat split; try reflexivity. discriminate. Qed.

(** C8, amended: when the insert of the sale goes through and the stock
    update of the line item at position [k] is rejected, the answer is 400
    with the message of the error; the sale stays in the collection, and
    the updates made before the rejection stay applied. *)
Theorem createSale_decrement_failure
  (w : World) (body : SaleInput) (k : nat) (message : string)
  (rest : list (option string)) :
  faults w = None :: replicate k None ++ Some message :: rest ->
  (k < length (in_items body))%nat ->
  Sales w !! next_oid w = None ->
  (createSale body w).1 = mkResponse 400 (JMessage message) /\
  Sales (createSale body w).2 !! next_oid w = Some (sale_of w body) /\
  Items (createSale body w).2 =
    apply_deltas (fun li => - quantity li) (take k (in_items body)) (Items w).
Proof.
  intros Hf Hk Hn. rewrite ReconcileFacts.createSale_run. cbv zeta.
  rewrite Hf, Hn. simpl head; simpl tail.
  erewrite ReconcileFacts.stock_loop_thrown; [| reflexivity | done].
  simpl. by rewrite lookup_insert_eq.
Qed.

Lemma createSale_decrement_failure_witness :
  (createSale ex_body ex_world_rejecting).1
    = mkResponse 400 (JMessage "connection lost") /\
  Sales (createSale ex_body ex_world_rejecting).2 !! 100%N
    = Some (sale_of ex_world_rejecting ex_body) /\
  Items (createSale ex_body ex_world_rejecting).2 =
    apply_deltas (fun li => - quantity li) (take 0 (in_items ex_body))
                 (Items ex_world_rejecting).
Proof.
  apply (createSale_decrement_failure ex_world_rejecting ex_body 0
           "connection lost" []).
  - reflexivity.
  - simpl. lia.
  - vm_compute. reflexivity.
Defined.

(** C9: with a store that answers every call, a sale with a line item
    whose item is not in the collection is created all the same (201, the
    sale is in the collection); the update for that line item writes
    nothing: the item collection is the one the other line items alone
    would leave, and the missing item is still missing. *)
Theorem createSale_missing_item
  (w : World) (body : SaleInput) (pre post : list LineItem) (li : LineItem) :
  in_items body = pre ++ li :: post ->
  Items w !! item_id li = None ->
  Sales w !! next_oid w = None ->
  faults w = [] ->
  (createSale body w).1 = mkResponse 201 (JSale (sale_of w body)) /\
  Sales (createSale body w).2 !! next_oid w = Some (sale_of w body) /\
  Items (createSale body w).2 =
    apply_deltas (fun li => - quantity li) (pre ++ post) (Items w) /\
  Items (createSale body w).2 !! item_id li = None.
Proof.
  intros Hb Hi Hn Hf. rewrite ReconcileFacts.createSale_run. cbv zeta.
  rewrite Hf, Hn. simpl head; simpl tail.
  rewrite ReconcileFacts.stock_loop_healthy by done. simpl.
  rewrite lookup_insert_eq, Hb.
  rewrite ReconcileFacts.apply_deltas_lookup, Hi.
  repeat split; try done.
  apply map_eq; intros id. rewrite !ReconcileFacts.apply_deltas_lookup.
  destruct (decide (id = item_id li)) as [-> | Hne].
  - by rewrite Hi.
  - f_equal. f_equal. unfold total_delta.
    rewrite !foldr_app. simpl. rewrite decide_False by done.
    by rewrite Z.add_0_l.
Qed.

Lemma createSale_missing_item_witness :
  (createSale ex_body_missing ex_world).1
    = mkResponse 201 (JSale (sale_of ex_world ex_body_missing)) /\
  Sales (createSale ex_body_missing ex_world).2 !! 100%N
    = Some (sale_of ex_world ex_body_missing) /\
  Items (createSale ex_body_missing ex_world).2 =
    apply_deltas (fun li => - quantity li) ([mkLineItem 1%N 3] ++ [])
                 (Items ex_world) /\
  Items (createSale ex_body_missing ex_world).2 !! 9%N = None.
Proof.
  apply (createSale_missing_item ex_world ex_body_missing
           [mkLineItem 1%N 3] [] (mkLineItem 9%N 4)).
  - reflexivity.
  - vm_compute. reflexivity.
  - vm_compute. reflexivity.
  - reflexivity.
Defined.

(** The three lower bounds, as distances from the clock reading: so many
    days, and the change of the offset between the two ends. *)
Lemma pastWeek_eq tza now :
  pastWeek tza now =
  now - 7 * EcmaDate.msPerDay
  + (tza now true
     - tza (EcmaDate.LocalTime tza now - 7 * EcmaDate.msPerDay) false).
Proof. unfold pastWeek. apply EcmaDateFacts.setDate_back. Qed.

Lemma pastWeek_bounds tza d now :
  EcmaDate.zone_spread tza d ->
  now - 7 * EcmaDate.msPerDay - d <= pastWeek tza now
                                  <= now - 7 * EcmaDate.msPerDay + d.
Proof. unfold pastWeek. apply EcmaDateFacts.setDate_back_spread. Qed.

Lemma pastMonth_bounds tza d now :
  EcmaDate.zone_spread tza d ->
  now - 31 * EcmaDate.msPerDay - d <= pastMonth tza now
                                   <= now - 28 * EcmaDate.msPerDay + d.
Proof. unfold pastMonth. apply EcmaDateFacts.setMonth_back. Qed.

Lemma pastYear_bounds tza d now :
  EcmaDate.zone_spread tza d ->
  now - 366 * EcmaDate.msPerDay - d <= pastYear tza now
                                    <= now - 365 * EcmaDate.msPerDay + d.
Proof. unfold pastYear. apply EcmaDateFacts.setFullYear_back. Qed.

(** The offsets of the zone of the daylight-saving example are an hour
    apart. *)
Lemma ex_zone_dst_spread : EcmaDate.zone_spread ex_zone_dst 3600000.
Proof.
  intros t t' b b'. unfold ex_zone_dst. cbv zeta.
  destruct (_ && _), (_ && _); lia.
Qed.

(** C5, as stated, fails: a line item dated 40 days before the clock
    reading is outside the one-month window; the monthly facet has no row
    for it. *)
Lemma report_40_days_not_in_monthly :
  monthly (report_facets utc ex_now [ex_sale_40_days]) = [] /\
  ~ contributes (monthly (report_facets utc ex_now [ex_sale_40_days]))
                (monthly (report_facets utc ex_now [ex_sale_40_days_empty]))
                1%N 7%N 4.
Proof.
  assert (monthly (report_facets utc ex_now [ex_sale_40_days]) = []) as E
    by (vm_compute; reflexivity).
  split; [exact E |].
  intros [[t Ht] _]. rewrite E in Ht. by apply elem_of_nil in Ht.
Qed.

(** The other half of C5 fails across a daylight-saving transition.  At
    noon in New York, two days after the clocks went forward, the weekly
    bound is noon seven calendar days earlier, which is 6 days and 23 hours
    before the clock reading: a line item dated 6 days, 23 hours and 30
    minutes before it is within the last 7 days and has no row in the
    weekly facet. *)
Lemma report_7_days_not_in_weekly_across_dst :
  ex_now_dst - 7 * EcmaDate.msPerDay <= date ex_sale_7_days_dst /\
  pastWeek ex_zone_dst ex_now_dst
    = ex_now_dst - 7 * EcmaDate.msPerDay + 3600000 /\
  weekly (report_facets ex_zone_dst ex_now_dst [ex_sale_7_days_dst]) = [] /\
  ~ contributes
      (weekly (report_facets ex_zone_dst ex_now_dst [ex_sale_7_days_dst]))
      (weekly (report_facets ex_zone_dst ex_now_dst
                 [ex_sale_7_days_dst_empty]))
      1%N 7%N 4.
Proof.
  assert (weekly (report_facets ex_zone_dst ex_now_dst [ex_sale_7_days_dst])
          = []) as E by (vm_compute; reflexivity).
  split; [vm_compute; discriminate |].
  split; [vm_compute; reflexivity |].
  split; [exact E |].
  intros [[t Ht] _]. rewrite E in Ht. by apply elem_of_nil in Ht.
Qed.

(** C5, amended: each of the three facets is its own filter-and-group pass
    over the same unwound history.  In a zone whose offsets are never more
    than [d] apart, [d] at most a day, the weekly bound is 7 days before the
    clock reading, the monthly bound 28 to 31 days and the yearly bound 365
    or 366 days before it, each up to [d] (exactly so where [d] is 0, in a
    zone without transitions).  A line item dated on or after the weekly
    bound, and so every line item dated no earlier than [d] after 7 days
    before the clock reading, contributes its quantity to the weekly, the
    monthly and the yearly total of its (item, user) pair; a line item
    dated 40 days before the clock reading contributes it to the yearly
    total only, and leaves the weekly and the monthly facet as they are
    without it. *)
Theorem report_window_contributions
  (tza : EcmaDate.TimeZone) (d now : Z) (pre post : list Sale) (id u : N)
  (dt : Z) (ipre ipost : list LineItem) (li : LineItem) :
  EcmaDate.zone_spread tza d ->
  d <= EcmaDate.msPerDay ->
  let docs := pre ++ mkSale id u dt (ipre ++ li :: ipost) :: post in
  let docs' := pre ++ mkSale id u dt (ipre ++ ipost) :: post in
  let F := report_facets tza now docs in
  let F' := report_facets tza now docs' in
  (weekly F = facet (pastWeek tza now) (unwind docs) /\
   monthly F = facet (pastMonth tza now) (unwind docs) /\
   yearly F = facet (pastYear tza now) (unwind docs)) /\
  (now - 7 * EcmaDate.msPerDay - d <= pastWeek tza now
                                   <= now - 7 * EcmaDate.msPerDay + d /\
   now - 31 * EcmaDate.msPerDay - d <= pastMonth tza now
                                    <= now - 28 * EcmaDate.msPerDay + d /\
   now - 366 * EcmaDate.msPerDay - d <= pastYear tza now
                                     <= now - 365 * EcmaDate.msPerDay + d) /\
  (pastWeek tza now <= dt \/ now - 7 * EcmaDate.msPerDay + d <= dt ->
   contributes (weekly F) (weekly F') (item_id li) u (quantity li) /\
   contributes (monthly F) (monthly F') (item_id li) u (quantity li) /\
   contributes (yearly F) (yearly F') (item_id li) u (quantity li)) /\
  (dt = now - 40 * EcmaDate.msPerDay ->
   weekly F = weekly F' /\
   monthly F = monthly F' /\
   contributes (yearly F) (yearly F') (item_id li) u (quantity li)).
Proof.
  intros Hz Hd docs docs' F F'. subst F F' docs docs'.
  unfold report_facets, pipeline. cbn [weekly monthly yearly].
  split; [done |].
  destruct (ReportFacts.unwind_line_item pre post id u dt ipre li ipost)
    as (l1 & l2 & -> & ->).
  pose proof (pastWeek_bounds tza d now Hz) as Hw.
  pose proof (pastMonth_bounds tza d now Hz) as Hm.
  pose proof (pastYear_bounds tza d now Hz) as Hy.
  pose proof (EcmaDateFacts.zone_spread_nonneg tza d Hz) as H0.
  split; [by split; [| split] |].
  set (bw := pastWeek tza now) in *. set (bm := pastMonth tza now) in *.
  set (by_ := pastYear tza now) in *. clearbody bw bm by_.
  unfold EcmaDate.msPerDay in *.
  split.
  - intros Hdt.
    split; [| split];
      apply (ReportFacts.facet_inside _ l1 (mkUnwound id u dt li) l2);
      simpl; lia.
  - intros ->. split; [| split].
    + apply ReportFacts.facet_outside. simpl. lia.
    + apply ReportFacts.facet_outside. simpl. lia.
    + apply (ReportFacts.facet_inside _ l1 (mkUnwound id u _ li) l2).
      simpl. lia.
Qed.

Lemma report_window_contributions_witness :
  (contributes (weekly (report_facets utc ex_now [ex_sale_3_days]))
               (weekly (report_facets utc ex_now [ex_sale_3_days_empty]))
               1%N 7%N 4 /\
   contributes (monthly (report_facets utc ex_now [ex_sale_3_days]))
               (monthly (report_facets utc ex_now [ex_sale_3_days_empty]))
               1%N 7%N 4 /\
   contributes (yearly (report_facets utc ex_now [ex_sale_3_days]))
               (yearly (report_facets utc ex_now [ex_sale_3_days_empty]))
               1%N 7%N 4) /\
  (weekly (report_facets utc ex_now [ex_sale_40_days])
     = weekly (report_facets utc ex_now [ex_sale_40_days_empty]) /\
   monthly (report_facets utc ex_now [ex_sale_40_days])
     = monthly (report_facets utc ex_now [ex_sale_40_days_empty]) /\
   contributes (yearly (report_facets utc ex_now [ex_sale_40_days]))
               (yearly (report_facets utc ex_now [ex_sale_40_days_empty]))
               1%N 7%N 4) /\
  (ex_now_dst - 7 * EcmaDate.msPerDay - 3600000
     <= pastWeek ex_zone_dst ex_now_dst
     <= ex_now_dst - 7 * EcmaDate.msPerDay + 3600000).
Proof.
  assert (EcmaDate.zone_spread utc 0) as Hu
    by (intros t t' b b'; unfold utc, EcmaDate.fixed_zone; lia).
  assert (EcmaDate.zone_spread ex_zone_dst 3600000) as Hz
    by (intros t t' b b'; unfold ex_zone_dst; cbv zeta;
        destruct (_ && _), (_ && _); lia).
  split; [| split].
  - apply (proj1 (proj2 (proj2
             (report_window_contributions utc 0 ex_now [] [] 100%N 7%N
                (ex_now - 3 * EcmaDate.msPerDay) [] [] (mkLineItem 1%N 4)
                Hu ltac:(vm_compute; discriminate))))).
    right. vm_compute. discriminate.
  - apply (proj2 (proj2 (proj2
             (report_window_contributions utc 0 ex_now [] [] 101%N 7%N
                (ex_now - 40 * EcmaDate.msPerDay) [] [] (mkLineItem 1%N 4)
                Hu ltac:(vm_compute; discriminate))))).
    reflexivity.
  - apply (proj1 (proj1 (proj2
             (report_window_contributions ex_zone_dst 3600000 ex_now_dst
                [] [] 103%N 7%N (ex_now_dst - 7 * EcmaDate.msPerDay + 1800000)
                [] [] (mkLineItem 1%N 4)
                Hz ltac:(vm_compute; discriminate))))).
Defined.

(** The second worked example: a sale of 4 of item A by U1, dated within
    the week, shows in all three lists with A's current fields and U1's
    name. *)
Example example_report :
  let w := mkWorld (<[100%N := ex_sale_3_days]> ∅) ex_items ex_users []
                   ex_now utc 101%N in
  (getFrequentlySoldItems w).1 =
  mkResponse 200 (JReport [ex_entry "U1"] [ex_entry "U1"] [ex_entry "U1"]).
Proof. vm_compute. done. Qed.

(** C6: in each window, two sales of one item by two different users give
    two distinct rows, one per (item, user) pair, each with the sum of the
    quantities of its pair inside the window; and no pair has two rows. *)
Theorem report_groups_by_item_and_user
  (tza : EcmaDate.TimeZone) (now : Z) (win : Window) (docs : list Sale)
  (s1 s2 : Sale) (li1 li2 : LineItem) :
  let bound := lower_bound tza now win in
  let rows := window_rows (report_facets tza now docs) win in
  let inside := match_date_gte bound (unwind docs) in
  s1 ∈ docs -> s2 ∈ docs ->
  li1 ∈ items s1 -> li2 ∈ items s2 ->
  item_id li1 = item_id li2 ->
  user_id s1 <> user_id s2 ->
  bound <= date s1 -> bound <= date s2 ->
  mkRow (item_id li1) (user_id s1)
        (sum_quantity (item_id li1, user_id s1) inside) ∈ rows /\
  mkRow (item_id li1) (user_id s2)
        (sum_quantity (item_id li1, user_id s2) inside) ∈ rows /\
  mkRow (item_id li1) (user_id s1)
        (sum_quantity (item_id li1, user_id s1) inside)
  <> mkRow (item_id li1) (user_id s2)
           (sum_quantity (item_id li1, user_id s2) inside) /\
  NoDup ((fun r => (row_item_id r, row_user_id r)) <$> rows).
Proof.
  intros bound rows inside Hs1 Hs2 Hl1 Hl2 Hi Hu Hd1 Hd2.
  subst rows. rewrite ReportFacts.window_rows_report_facets. fold bound.
  clearbody bound.
  assert (forall s li, s ∈ docs -> li ∈ items s -> bound <= date s ->
            mkRow (item_id li) (user_id s)
                  (sum_quantity (item_id li, user_id s) inside)
            ∈ facet bound (unwind docs)) as Hrow.
  { intros s li Hs Hl Hd. apply ReportFacts.facet_row_iff.
    fold inside. rewrite ReportFacts.group_sum_lookup. apply decide_True.
    change (item_id li, user_id s)
      with (group_id (mkUnwound (sale_id s) (user_id s) (date s) li)).
    apply list_elem_of_fmap_2. subst inside. unfold match_date_gte.
    apply list_elem_of_filter. split; [done |].
    by apply ReportFacts.unwind_elem. }
  split; [by apply Hrow |].
  split; [rewrite Hi; by apply Hrow |].
  split; [| apply ReportFacts.facet_NoDup].
  intros [= E]. by apply Hu.
Qed.

Lemma report_groups_by_item_and_user_witness :
  let docs := [ex_sale_3_days; ex_sale_other_user] in
  let rows := window_rows (report_facets utc ex_now docs) Weekly in
  let inside := match_date_gte (lower_bound utc ex_now Weekly) (unwind docs) in
  mkRow 1%N 7%N (sum_quantity (1%N, 7%N) inside) ∈ rows /\
  mkRow 1%N 8%N (sum_quantity (1%N, 8%N) inside) ∈ rows /\
  mkRow 1%N 7%N (sum_quantity (1%N, 7%N) inside)
  <> mkRow 1%N 8%N (sum_quantity (1%N, 8%N) inside) /\
  NoDup ((fun r => (row_item_id r, row_user_id r)) <$> rows).
Proof.
  apply (report_groups_by_item_and_user utc ex_now Weekly
           [ex_sale_3_days; ex_sale_other_user]
           ex_sale_3_days ex_sale_other_user
           (mkLineItem 1%N 4) (mkLineItem 1%N 5)).
  - apply list_elem_of_here.
  - apply list_elem_of_further, list_elem_of_here.
  - apply list_elem_of_here.
  - apply list_elem_of_here.
  - reflexivity.
  - simpl. discriminate.
  - vm_compute. discriminate.
  - vm_compute. discriminate.
Defined.

(** C7, as stated, fails in its second half: a user whose name is the
    empty string is in the user collection, and the entries of that user
    show "Unknown", not the name. *)
Lemma report_empty_name_shows_Unknown :
  Users ex_world_empty_name !! 7%N = Some (mkUser "") /\
  (getFrequentlySoldItems ex_world_empty_name).1 =
    mkResponse 200 (JReport [ex_entry "Unknown"] [ex_entry "Unknown"]
                            [ex_entry "Unknown"]) /\
  user_name (ex_entry "Unknown") <> name (mkUser "").
Proof. vm_compute. split; [done |]. split; [done | discriminate]. Qed.

(** C7, amended: in the entries [formatResults] returns, one per row, the
    [user_name] is "Unknown" when the [user_id] of the row has no record in
    the user collection, and the name of the user when the record is there
    and its name is not empty; a record with an empty name shows "Unknown"
    too. *)
Theorem formatResults_user_name
  (w w' w'' : World) (rows : list Row) (es : list ReportEntry) :
  formatResults (populate_row w <$> rows) w' = (Value es, w'') ->
  length es = length rows /\
  forall k r e, rows !! k = Some r -> es !! k = Some e ->
    (Users w !! row_user_id r = None -> user_name e = "Unknown") /\
    (forall usr, Users w !! row_user_id r = Some usr -> name usr <> "" ->
                 user_name e = name usr) /\
    (forall usr, Users w !! row_user_id r = Some usr -> name usr = "" ->
                 user_name e = "Unknown").
Proof.
  rewrite ReportFacts.formatResults_run.
  destruct (mapM entry_of _) as [es' |] eqn:Hm; [| discriminate].
  intros [= -> _]. split.
  - apply length_mapM in Hm. by rewrite length_fmap in Hm.
  - intros k r e Hr He. apply mapM_Some_1 in Hm.
    assert ((populate_row w <$> rows) !! k = Some (populate_row w r)) as Hp
      by (by rewrite list_lookup_fmap, Hr).
    pose proof (Forall2_lookup_lr _ _ _ _ _ _ Hm Hp He) as Hent.
    unfold entry_of, populate_row in Hent. simpl in Hent.
    destruct (Items w !! row_item_id r) as [it |]; [| discriminate].
    simpl in Hent. injection Hent as <-. cbn [user_name].
    destruct (Users w !! row_user_id r) as [[n] |]; simpl.
    + split; [done |]. split.
      * intros usr [= <-] Hn. simpl in Hn. by destruct n.
      * intros usr [= <-] Hn. simpl in Hn. by rewrite Hn.
    + split; [done |]. by split.
Qed.

Lemma formatResults_user_name_witness :
  let rows := [mkRow 1%N 7%N 4; mkRow 1%N 99%N 4] in
  let es := [ex_entry "U1"; ex_entry "Unknown"] in
  length es = length rows /\
  forall k r e, rows !! k = Some r -> es !! k = Some e ->
    (Users ex_world !! row_user_id r = None -> user_name e = "Unknown") /\
    (forall usr, Users ex_world !! row_user_id r = Some usr ->
                 name usr <> "" -> user_name e = name usr) /\
    (forall usr, Users ex_world !! row_user_id r = Some usr ->
                 name usr = "" -> user_name e = "Unknown").
Proof.
  apply (formatResults_user_name ex_world ex_world ex_world
           [mkRow 1%N 7%N 4; mkRow 1%N 99%N 4]
           [ex_entry "U1"; ex_entry "Unknown"]).
  vm_compute. reflexivity.
Defined.

(** C10: when a row of one of the three facets has an [item_id] that is
    not in the item collection, the report answers 500; with a store that
    answers every call the message is that of the TypeError raised by
    reading [_id] of [null].  There is no fallback for a missing item. *)
Theorem report_fails_on_missing_item (w : World) (win : Window) (r : Row) :
  r ∈ window_rows (report_facets (LocalTZA w) (clock w)
                                 (snd <$> map_to_list (Sales w))) win ->
  Items w !! row_item_id r = None ->
  status (getFrequentlySoldItems w).1 = 500 /\
  (faults w = [] ->
   (getFrequentlySoldItems w).1
     = mkResponse 500 (JMessage null_property_error)).
Proof.
  intros Hr Hi.
  set (F := report_facets (LocalTZA w) (clock w)
                          (snd <$> map_to_list (Sales w))) in *.
  assert (mapM entry_of (populate_row w <$> window_rows F win) = None) as Hn.
  { apply mapM_None_2. apply Exists_exists. exists (populate_row w r).
    split; [by apply list_elem_of_fmap_2 |].
    unfold entry_of, populate_row. simpl. by rewrite Hi. }
  pose proof (ReportFacts.getFrequentlySoldItems_cases w) as Hc.
  pose proof (ReportFacts.getFrequentlySoldItems_healthy w) as Hh.
  cbv zeta in Hc, Hh. fold F in Hc, Hh. clearbody F.
  split.
  - destruct Hc as [[message ->] | (ew & em & ey & _ & Hw & Hm & Hy)];
      [done |].
    destruct win; cbn [window_rows] in Hn; congruence.
  - intros Hf. rewrite (Hh Hf).
    destruct win; cbn [window_rows] in Hn; rewrite Hn;
      repeat (destruct (mapM entry_of _)); done.
Qed.

Lemma report_fails_on_missing_item_witness :
  status (getFrequentlySoldItems ex_world_item_gone).1 = 500 /\
  (getFrequentlySoldItems ex_world_item_gone).1
    = mkResponse 500 (JMessage null_property_error).
Proof.
  assert (mkRow 9%N 7%N 4
          ∈ window_rows (report_facets (LocalTZA ex_world_item_gone)
                           (clock ex_world_item_gone)
                           (snd <$> map_to_list (Sales ex_world_item_gone)))
                        Weekly) as Hr
    by (vm_compute; apply list_elem_of_here).
  assert (Items ex_world_item_gone !! 9%N = None) as Hi
    by (vm_compute; reflexivity).
  destruct (report_fails_on_missing_item ex_world_item_gone Weekly
              (mkRow 9%N 7%N 4) Hr Hi) as [H1 H2].
  split; [exact H1 | apply H2; reflexivity].
Defined.

(** ** Further properties of the handlers *)

Module HandlerFacts.
Import Store SalesController Reconcile ReportSpec SalesReads Ledger.
Local Open Scope Z_scope.

(** The stock loop touches the item collection only. *)
Lemma stock_loop_frame delta l w :
  Sales (stock_loop delta l w).2 = Sales w /\
  Users (stock_loop delta l w).2 = Users w.
Proof.
  revert w; induction l as [| li l IH]; intros w; [done |].
  rewrite ReconcileFacts.stock_loop_cons.
  destruct (head (faults w)) as [[message |] |]; [done | |];
    by destruct (IH (with_Items
                       (alter (inc_stock (delta li)) (item_id li) (Items w))
                       (with_faults (tail (faults w)) w))).
Qed.

(** The stock after the updates of [l], for any item. *)
Lemma apply_deltas_stock delta l m id :
  stock <$> apply_deltas delta l m !! id =
  (fun s => s + total_delta delta id l) <$> (stock <$> m !! id).
Proof.
  rewrite ReconcileFacts.apply_deltas_lookup. by destruct (m !! id).
Qed.

Lemma getSaleById_run id w :
  getSaleById id w =
  (match head (faults w) with
   | Some (Some message) => mkReadResponse 500 (JReadMessage message)
   | _ =>
       match Sales w !! id with
       | None => mkReadResponse 404 (JReadMessage "Sale not found")
       | Some s => mkReadResponse 200 (JPopulatedSale (populate_items w s))
       end
   end, with_faults (tail (faults w)) w).
Proof.
  unfold getSaleById, try_catch_read, bind, Sale_findById_populated, bind,
    store_call.
  destruct (head (faults w)) as [[message |] |]; try done;
    unfold with_faults at 1; simpl; by destruct (Sales w !! id).
Qed.

Lemma getAllSales_run w :
  getAllSales w =
  (match head (faults w) with
   | Some (Some message) => mkReadResponse 500 (JReadMessage message)
   | _ =>
       mkReadResponse 200
         (JSales (populate_items_and_user w
                    <$> (snd <$> map_to_list (Sales w))))
   end, with_faults (tail (faults w)) w).
Proof.
  unfold getAllSales, try_catch_read, bind, Sale_find_populated, bind,
    store_call.
  by destruct (head (faults w)) as [[message |] |].
Qed.

Lemma sold_in_perm id l l' : l ≡ₚ l' -> sold_in id l = sold_in id l'.
Proof. induction 1; simpl; lia. Qed.

(** A sale stored under a fresh key adds its quantities to the ledger. *)
Lemma sold_in_insert id (m : gmap N Sale) k s :
  m !! k = None ->
  sold_in id (snd <$> map_to_list (<[k := s]> m)) =
  total_delta quantity id (items s) + sold_in id (snd <$> map_to_list m).
Proof.
  intros Hk.
  rewrite (sold_in_perm id _ _
             (fmap_Permutation snd _ _ (map_to_list_insert m k s Hk))).
  done.
Qed.

(** A sale that is removed takes its quantities off the ledger. *)
Lemma sold_in_delete id (m : gmap N Sale) k s :
  m !! k = Some s ->
  sold_in id (snd <$> map_to_list m) =
  total_delta quantity id (items s)
  + sold_in id (snd <$> map_to_list (delete k m)).
Proof.
  intros Hk. rewrite <- (sold_in_insert id (delete k m) k s)
    by apply lookup_delete_eq.
  by rewrite insert_delete_eq, insert_id.
Qed.

(** What [createSale] does to the sale collection: nothing, or the insert
    of the new sale under an id that was free; and nothing to the users. *)
Lemma createSale_sales body w :
  (Sales (createSale body w).2 = Sales w \/
   (Sales w !! next_oid w = None /\
    Sales (createSale body w).2
      = <[next_oid w := sale_of w body]> (Sales w))) /\
  Users (createSale body w).2 = Users w.
Proof.
  rewrite ReconcileFacts.createSale_run. cbv zeta.
  destruct (head (faults w)) as [[message |] |].
  - split; [by left | done].
  - destruct (Sales w !! next_oid w) as [s' |] eqn:Hn;
      [split; [by left | done] |].
    match goal with
    | |- context [stock_loop ?d ?l ?w0] =>
        pose proof (stock_loop_frame d l w0) as [HS HU];
        destruct (stock_loop d l w0) as [[[] | message] w']
    end; simpl in *; rewrite HS, HU; (split; [by right | done]).
  - destruct (Sales w !! next_oid w) as [s' |] eqn:Hn;
      [split; [by left | done] |].
    match goal with
    | |- context [stock_loop ?d ?l ?w0] =>
        pose proof (stock_loop_frame d l w0) as [HS HU];
        destruct (stock_loop d l w0) as [[[] | message] w']
    end; simpl in *; rewrite HS, HU; (split; [by right | done]).
Qed.

(** What a 200 of [deleteSale] says about the world it leaves. *)
Lemma deleteSale_deleted id w r w1 :
  deleteSale id w = (r, w1) ->
  status r = 200 ->
  exists sale,
    Sales w !! id = Some sale /\
    Sales w1 = delete id (Sales w) /\
    Items w1 = apply_deltas quantity (items sale) (Items w).
Proof.
  intros Hd Hr. rewrite ReconcileFacts.deleteSale_run in Hd.
  cbv zeta in Hd.
  destruct (head (faults w)) as [[message |] |];
    try (injection Hd as <- <-; discriminate Hr);
    (destruct (Sales w !! id) as [sale |];
     [| injection Hd as <- <-; discriminate Hr]);
    destruct (stock_loop _ _ _) as [[[] | message] w'] eqn:Hl;
    injection Hd as <- <-; try discriminate Hr;
    apply ReconcileFacts.stock_loop_value in Hl; subst w'; simpl;
    by exists sale.
Qed.

(** What a 200 of [updateSale] says about the world it leaves. *)
Lemma updateSale_updated id body w r w1 :
  updateSale id body w = (r, w1) ->
  status r = 200 ->
  exists sale,
    Sales w !! id = Some sale /\
    r = mkResponse 200 (JSale (apply_update body (clock w) sale)) /\
    Sales w1 = <[id := apply_update body (clock w) sale]> (Sales w) /\
    Items w1 = Items w /\
    faults w1 = tail (faults w) /\
    clock w1 = clock w.
Proof.
  intros Hu Hr. rewrite ReconcileFacts.updateSale_run in Hu.
  cbv zeta in Hu.
  destruct (head (faults w)) as [[message |] |];
    try (injection Hu as <- <-; discriminate Hr);
    (destruct (Sales w !! id) as [sale |];
     [| injection Hu as <- <-; discriminate Hr]);
    injection Hu as <- <-; by exists sale.
Qed.

(** Replacing fields a second time changes nothing. *)
Lemma replace_fields_idem u d l now now' s :
  apply_update (replace_fields u d l) now'
               (apply_update (replace_fields u d l) now s)
  = apply_update (replace_fields u d l) now s.
Proof. unfold apply_update, replace_fields; simpl. by destruct u, d, l. Qed.

(** What [$push] makes of a sale. *)
Lemma apply_update_push_item li now s :
  apply_update (push_item li) now s
  = mkSale (sale_id s) (user_id s) (date s) (items s ++ [li]).
Proof. reflexivity. Qed.

(** The ledger of an item moves with its stock and with the quantities the
    stored sales hold of it. *)
Lemma ledger_eq w w1 id a b :
  stock_of w1 id = (fun s => s + a) <$> stock_of w id ->
  sold_total w1 id = sold_total w id + b ->
  a + b = 0 ->
  ledger w1 id = ledger w id.
Proof.
  intros Hs Ht Hab. unfold ledger. rewrite Hs, Ht.
  destruct (stock_of w id); simpl; [f_equal; lia | done].
Qed.

(** The report writes to none of the three collections. *)
Lemma getFrequentlySoldItems_frame w :
  Sales (getFrequentlySoldItems w).2 = Sales w /\
  Items (getFrequentlySoldItems w).2 = Items w /\
  Users (getFrequentlySoldItems w).2 = Users w.
Proof.
  destruct (getFrequentlySoldItems w) as [r w'] eqn:E.
  unfold getFrequentlySoldItems, try_catch in E.
  unfold bind at 1, new_Date in E. unfold bind at 1, local_tza in E.
  unfold bind at 1 in E. rewrite ReportFacts.Sale_aggregate_run in E.
  set (F := pipeline _ _ _ _) in E. clearbody F. cbn [snd].
  destruct (head (faults w)) as [[message |] |];
    [by injection E as <- <- | |];
    (unfold bind at 1 in E; rewrite ReportFacts.Sale_populate_run in E;
     destruct (head _) as [[? |] |];
     [by injection E as <- <- | |]);
    (unfold bind at 1 in E; rewrite ReportFacts.Sale_populate_run in E;
     destruct (head _) as [[? |] |];
     [by injection E as <- <- | |]);
    (unfold bind at 1 in E; rewrite ReportFacts.Sale_populate_run in E;
     destruct (head _) as [[? |] |];
     [by injection E as <- <- | |]);
    (unfold bind at 1 in E; rewrite ReportFacts.formatResults_run in E;
     destruct (mapM entry_of _) as [ew |];
     [| by injection E as <- <-]);
    (unfold bind at 1 in E; rewrite ReportFacts.formatResults_run in E;
     destruct (mapM entry_of _) as [em |];
     [| by injection E as <- <-]);
    (unfold bind at 1 in E; rewrite ReportFacts.formatResults_run in E;
     destruct (mapM entry_of _) as [ey |];
     [| by injection E as <- <-]);
    by injection E as <- <-.
Qed.

(** A later bound keeps fewer documents. *)
Lemma match_date_gte_mono b1 b2 docs d :
  b2 <= b1 -> d ∈ match_date_gte b1 docs -> d ∈ match_date_gte b2 docs.
Proof.
  unfold match_date_gte. rewrite !list_elem_of_filter.
  intros Hb [Hd Hin]. split; [lia | done].
Qed.

(** With no negative quantity, a later bound gives a smaller sum. *)
Lemma sum_quantity_mono k b1 b2 docs :
  b2 <= b1 ->
  (forall d, d ∈ docs -> 0 <= quantity (u_items d)) ->
  sum_quantity k (match_date_gte b1 docs)
  <= sum_quantity k (match_date_gte b2 docs).
Proof.
  intros Hb. unfold match_date_gte.
  induction docs as [| d docs IH]; intros Hq; [done |].
  assert (0 <= quantity (u_items d)) as Hd by (apply Hq; left).
  assert (sum_quantity k (filter (fun d => b1 <= u_date d) docs)
          <= sum_quantity k (filter (fun d => b2 <= u_date d) docs)) as IH'
    by (apply IH; intros; apply Hq; by right).
  rewrite !filter_cons.
  destruct (decide (b1 <= u_date d)), (decide (b2 <= u_date d));
    rewrite ?ReportFacts.sum_quantity_cons; try lia;
    case_decide; lia.
Qed.

(** An unwound document comes from a line item of a sale. *)
Lemma unwind_elem_inv docs d :
  d ∈ unwind docs ->
  exists s li, s ∈ docs /\ li ∈ items s /\
               d = mkUnwound (sale_id s) (user_id s) (date s) li.
Proof.
  intros Hd. apply list_elem_of_In in Hd. unfold unwind in Hd.
  apply in_flat_map in Hd as (s & Hs & Hd).
  apply list_elem_of_In in Hs, Hd.
  apply list_elem_of_fmap in Hd as (li & -> & Hli). by exists s, li.
Qed.

(** A history without line items unwinds to nothing. *)
Lemma unwind_no_items docs :
  (forall s, s ∈ docs -> items s = []) -> unwind docs = [].
Proof.
  induction docs as [| s docs IH]; intros H; [done |].
  unfold unwind in *. simpl. rewrite (H s) by left. simpl.
  apply IH. intros; apply H; by right.
Qed.

Lemma facet_nil bound : facet bound [] = [].
Proof. reflexivity. Qed.

(** The entry of a populated row whose item is there. *)
Lemma entry_of_populate_row w r it :
  Items w !! row_item_id r = Some it ->
  entry_of (populate_row w r) =
  Some (mkReportEntry (row_item_id r) (item_name it) (totalQuantitySold r)
          (stock it) (supplier it) (reorder_level it)
          (or_string (name <$> Users w !! row_user_id r) "Unknown")).
Proof. intros Hi. unfold entry_of, populate_row. simpl. by rewrite Hi. Qed.

(** Rows whose items are all there format to one entry per row, carrying
    the total of the row and the stock the item has now. *)
Lemma mapM_entry_of w rows :
  (forall r, r ∈ rows -> is_Some (Items w !! row_item_id r)) ->
  exists es,
    mapM entry_of (populate_row w <$> rows) = Some es /\
    Forall2 (fun r e =>
               entry_id e = row_item_id r /\
               entry_totalQuantitySold e = totalQuantitySold r /\
               stock_of w (row_item_id r) = Some (entry_stock e))
            rows es.
Proof.
  induction rows as [| r rows IH]; intros H.
  - by exists [].
  - destruct (H r) as [it Hit]; [left |].
    destruct IH as (es & Hes & HF); [intros; apply H; by right |].
    eexists (_ :: es). rewrite fmap_cons. split.
    + simpl. rewrite (entry_of_populate_row w r it Hit). simpl.
      rewrite Hes. reflexivity.
    + constructor; [| done]. simpl. unfold stock_of. by rewrite Hit.
Qed.

(** The three bounds, and their order, in a zone whose offsets are never
    more than [d] apart, [d] at most a day. *)
Lemma report_window_bounds_aux tza d now :
  EcmaDate.zone_spread tza d ->
  d <= EcmaDate.msPerDay ->
  (now - 7 * EcmaDate.msPerDay - d <= pastWeek tza now
                                   <= now - 7 * EcmaDate.msPerDay + d /\
   now - 31 * EcmaDate.msPerDay - d <= pastMonth tza now
                                    <= now - 28 * EcmaDate.msPerDay + d /\
   now - 366 * EcmaDate.msPerDay - d <= pastYear tza now
                                     <= now - 365 * EcmaDate.msPerDay + d) /\
  pastYear tza now < pastMonth tza now /\
  pastMonth tza now < pastWeek tza now /\
  pastWeek tza now < now.
Proof.
  intros Hz Hd. unfold pastWeek, pastMonth, pastYear.
  pose proof (EcmaDateFacts.setDate_back_spread tza d now 7 Hz) as Hw.
  pose proof (EcmaDateFacts.setMonth_back tza d now Hz) as Hm.
  pose proof (EcmaDateFacts.setFullYear_back tza d now Hz) as Hy.
  pose proof (EcmaDateFacts.zone_spread_nonneg tza d Hz) as H0.
  set (bw := EcmaDate.setDate _ _ _) in *.
  set (bm := EcmaDate.setMonth _ _ _) in *.
  set (by_ := EcmaDate.setFullYear _ _ _) in *. clearbody bw bm by_.
  unfold EcmaDate.msPerDay in *. lia.
Qed.

(** A 201 of [createSale] leaves the clock and the time zone alone. *)
Lemma createSale_created_clock body w sale w1 :
  createSale body w = (mkResponse 201 (JSale sale), w1) ->
  clock w1 = clock w /\ LocalTZA w1 = LocalTZA w.
Proof.
  rewrite ReconcileFacts.createSale_run. cbv zeta.
  destruct (head (faults w)) as [[message |] |]; try discriminate;
    destruct (Sales w !! next_oid w); try discriminate;
    destruct (stock_loop _ _ _) as [[[] | message] w'] eqn:Hl;
    try discriminate; intros [= <- <-];
    apply ReconcileFacts.stock_loop_value in Hl; by subst w'.
Qed.

(** A pair has a row in a facet exactly when one of its line items is
    dated inside the window. *)
Lemma facet_row_exists bound docs i u :
  (exists t, mkRow i u t ∈ facet bound (unwind docs)) <->
  (exists s li, s ∈ docs /\ li ∈ items s /\ item_id li = i /\
                user_id s = u /\ bound <= date s).
Proof.
  split.
  - intros [t Ht]. apply ReportFacts.facet_row_iff in Ht.
    rewrite ReportFacts.group_sum_lookup in Ht.
    case_decide as Hk; [| discriminate].
    apply list_elem_of_fmap in Hk as (d & Hd & Hk).
    unfold match_date_gte in Hk. apply list_elem_of_filter in Hk as [Hb Hk].
    apply unwind_elem_inv in Hk as (s & li & Hs & Hli & ->).
    injection Hd as -> ->. by exists s, li.
  - intros (s & li & Hs & Hli & <- & <- & Hb).
    eexists. apply ReportFacts.facet_row_iff.
    rewrite ReportFacts.group_sum_lookup. apply decide_True.
    change (item_id li, user_id s)
      with (group_id (mkUnwound (sale_id s) (user_id s) (date s) li)).
    apply list_elem_of_fmap_2. unfold match_date_gte.
    apply list_elem_of_filter. split; [done |].
    by apply ReportFacts.unwind_elem.
Qed.

End HandlerFacts.

Import SalesReads Ledger.

(** X1: when the insert of the sale is rejected (a validation error, say),
    [createSale] answers 400 with the message of the error, and neither the
    sale collection nor the item collection is written. *)
Theorem createSale_insert_rejected
  (w : World) (body : SaleInput) (message : string) :
  head (faults w) = Some (Some message) ->
  (createSale body w).1 = mkResponse 400 (JMessage message) /\
  Sales (createSale body w).2 = Sales w /\
  Items (createSale body w).2 = Items w.
Proof.
  intros Hf. rewrite ReconcileFacts.createSale_run. cbv zeta.
  by rewrite Hf.
Qed.

Lemma createSale_insert_rejected_witness :
  let w := with_faults [Some "Sale validation failed"] ex_world in
  (createSale ex_body w).1
    = mkResponse 400 (JMessage "Sale validation failed") /\
  Sales (createSale ex_body w).2 = Sales w /\
  Items (createSale ex_body w).2 = Items w.
Proof.
  apply (createSale_insert_rejected
           (with_faults [Some "Sale validation failed"] ex_world) ex_body
           "Sale validation failed").
  reflexivity.
Defined.

(** X2: after a 201 the stock of every item is lower by the sum of the
    quantities of the line items that name it, however often it is named;
    an item that no line item names is left as it is, and no item is added
    to the collection. *)
Theorem createSale_stock_effect
  (w : World) (body : SaleInput) (sale : Sale) (w1 : World) :
  createSale body w = (mkResponse 201 (JSale sale), w1) ->
  forall id,
    stock_of w1 id =
      (fun s => s - total_delta quantity id (in_items body))
        <$> stock_of w id /\
    (id ∉ item_id <$> in_items body -> Items w1 !! id = Items w !! id).
Proof.
  intros Hc id.
  destruct (ReconcileFacts.createSale_created _ _ _ _ Hc) as (_ & _ & _ & HI).
  unfold stock_of. rewrite HI. split.
  - rewrite HandlerFacts.apply_deltas_stock.
    rewrite ReconcileFacts.total_delta_opp.
    destruct (Items w !! id); simpl; [f_equal; lia | done].
  - intros Hid. rewrite ReconcileFacts.apply_deltas_lookup.
    rewrite ReconcileFacts.total_delta_not_in by done.
    destruct (Items w !! id) as [[]|]; simpl; [| done].
    unfold inc_stock; simpl. do 2 f_equal. lia.
Qed.

Lemma createSale_stock_effect_witness :
  let body := mkSaleInput 7%N None [mkLineItem 1%N 3; mkLineItem 1%N 2] in
  stock_of (createSale body ex_world).2 1%N =
    (fun s => s - total_delta quantity 1%N (in_items body))
      <$> stock_of ex_world 1%N /\
  (1%N ∉ item_id <$> in_items body ->
   Items (createSale body ex_world).2 !! 1%N = Items ex_world !! 1%N).
Proof.
  intros body.
  apply (createSale_stock_effect ex_world body (sale_of ex_world body)
           (createSale body ex_world).2).
  vm_compute. reflexivity.
Defined.

(** X3: whatever its answer, [createSale] keeps every sale that was in the
    collection as it was, and leaves the user collection alone. *)
Theorem createSale_keeps_sales
  (w : World) (body : SaleInput) (id : N) (s : Sale) :
  Sales w !! id = Some s ->
  Sales (createSale body w).2 !! id = Some s /\
  Users (createSale body w).2 = Users w.
Proof.
  intros Hs.
  destruct (HandlerFacts.createSale_sales body w) as [[-> | [Hn ->]] ->].
  - done.
  - split; [| done]. apply lookup_insert_Some. right.
    split; [congruence | done].
Qed.

Lemma createSale_keeps_sales_witness :
  let w := (createSale ex_body ex_world).2 in
  Sales (createSale ex_body_missing w).2 !! 100%N
    = Some (sale_of ex_world ex_body) /\
  Users (createSale ex_body_missing w).2 = Users w.
Proof.
  apply (createSale_keeps_sales (createSale ex_body ex_world).2
           ex_body_missing 100%N (sale_of ex_world ex_body)).
  vm_compute. reflexivity.
Defined.

(** X4: a deletion that answers 200 has removed the sale, and the stock of
    every item is higher by the sum of the quantities the sale held of it,
    wherever the sale came from. *)
Theorem deleteSale_restores_quantities
  (w : World) (id : N) (sale : Sale) (r : Response) (w1 : World) :
  Sales w !! id = Some sale ->
  deleteSale id w = (r, w1) ->
  status r = 200 ->
  Sales w1 = delete id (Sales w) /\
  forall i, stock_of w1 i =
    (fun s => s + total_delta quantity i (items sale)) <$> stock_of w i.
Proof.
  intros Hs Hd Hr.
  destruct (HandlerFacts.deleteSale_deleted _ _ _ _ Hd Hr)
    as (sale' & Hs' & HS & HI).
  assert (sale' = sale) as -> by congruence.
  split; [done |]. intros i. unfold stock_of. rewrite HI.
  apply HandlerFacts.apply_deltas_stock.
Qed.

Lemma deleteSale_restores_quantities_witness :
  let w := (createSale ex_body ex_world).2 in
  Sales (deleteSale 100%N w).2 = delete 100%N (Sales w) /\
  forall i, stock_of (deleteSale 100%N w).2 i =
    (fun s => s + total_delta quantity i (items (sale_of ex_world ex_body)))
      <$> stock_of w i.
Proof.
  apply (deleteSale_restores_quantities (createSale ex_body ex_world).2
           100%N (sale_of ex_world ex_body)
           (deleteSale 100%N (createSale ex_body ex_world).2).1).
  - vm_compute. reflexivity.
  - apply surjective_pairing.
  - vm_compute. reflexivity.
Defined.

(** X5: the sale is removed before its stock is given back.  When the
    update for the line item at position [k] is rejected, [deleteSale]
    answers 500 with the message of the error, the sale is gone all the
    same, and only the line items before position [k] have been given
    back. *)
Theorem deleteSale_increment_failure
  (w : World) (id : N) (sale : Sale) (k : nat) (message : string)
  (rest : list (option string)) :
  Sales w !! id = Some sale ->
  faults w = None :: replicate k None ++ Some message :: rest ->
  (k < length (items sale))%nat ->
  (deleteSale id w).1 = mkResponse 500 (JMessage message) /\
  Sales (deleteSale id w).2 !! id = None /\
  Items (deleteSale id w).2 =
    apply_deltas quantity (take k (items sale)) (Items w).
Proof.
  intros Hs Hf Hk. rewrite ReconcileFacts.deleteSale_run. cbv zeta.
  rewrite Hf, Hs. simpl head; simpl tail.
  erewrite ReconcileFacts.stock_loop_thrown; [| reflexivity | done].
  simpl. by rewrite lookup_delete_eq.
Qed.

Lemma deleteSale_increment_failure_witness :
  let w := with_faults [None; None; Some "timeout"]
                       (createSale ex_body ex_world).2 in
  (deleteSale 100%N w).1 = mkResponse 500 (JMessage "timeout") /\
  Sales (deleteSale 100%N w).2 !! 100%N = None /\
  Items (deleteSale 100%N w).2 =
    apply_deltas quantity (take 1 (items (sale_of ex_world ex_body)))
                 (Items w).
Proof.
  apply (deleteSale_increment_failure
           (with_faults [None; None; Some "timeout"]
                        (createSale ex_body ex_world).2)
           100%N (sale_of ex_world ex_body) 1 "timeout" []).
  - vm_compute. reflexivity.
  - reflexivity.
  - simpl. lia.
Defined.

(** X6: once a deletion has answered 200 the sale is gone: deleting it
    again answers 404 and gives no stock back a second time, and reading
    it answers 404. *)
Theorem deleted_sale_is_gone
  (w : World) (id : N) (r : Response) (w1 : World) :
  deleteSale id w = (r, w1) ->
  status r = 200 ->
  (forall message, head (faults w1) <> Some (Some message)) ->
  (deleteSale id w1).1 = mkResponse 404 (JMessage "Sale not found") /\
  Items (deleteSale id w1).2 = Items w1 /\
  (getSaleById id w1).1 = mkReadResponse 404 (JReadMessage "Sale not found").
Proof.
  intros Hd Hr Hp.
  assert (Sales w1 !! id = None) as Hgone.
  { destruct (HandlerFacts.deleteSale_deleted _ _ _ _ Hd Hr)
      as (sale & _ & -> & _).
    apply lookup_delete_eq. }
  rewrite ReconcileFacts.deleteSale_run, HandlerFacts.getSaleById_run.
  cbv zeta. rewrite Hgone.
  destruct (head (faults w1)) as [[message |] |]; try done.
  by destruct (Hp message).
Qed.

Lemma deleted_sale_is_gone_witness :
  let w1 := (deleteSale 100%N (createSale ex_body ex_world).2).2 in
  (deleteSale 100%N w1).1 = mkResponse 404 (JMessage "Sale not found") /\
  Items (deleteSale 100%N w1).2 = Items w1 /\
  (getSaleById 100%N w1).1
    = mkReadResponse 404 (JReadMessage "Sale not found").
Proof.
  apply (deleted_sale_is_gone (createSale ex_body ex_world).2 100%N
           (deleteSale 100%N (createSale ex_body ex_world).2).1).
  - apply surjective_pairing.
  - vm_compute. reflexivity.
  - intros message. vm_compute. discriminate.
Defined.

(** X7: an update of a sale id that is not in the collection writes
    nothing to the sale collection; when the lookup goes through, the
    answer is 404 "Sale not found". *)
Theorem updateSale_not_found (w : World) (id : N) (body : SaleUpdate) :
  Sales w !! id = None ->
  Sales (updateSale id body w).2 = Sales w /\
  ((forall message, head (faults w) <> Some (Some message)) ->
   (updateSale id body w).1 = mkResponse 404 (JMessage "Sale not found")).
Proof.
  intros Hn. rewrite ReconcileFacts.updateSale_run. cbv zeta. rewrite Hn.
  destruct (head (faults w)) as [[message |] |]; simpl;
    (split; [done |]); try done.
  intros H. by destruct (H message).
Qed.

Lemma updateSale_not_found_witness :
  Sales (updateSale 42%N (replace_fields None None (Some [])) ex_world).2
    = Sales ex_world /\
  (updateSale 42%N (replace_fields None None (Some [])) ex_world).1
    = mkResponse 404 (JMessage "Sale not found").
Proof.
  assert (Sales ex_world !! 42%N = None) as Hn by (vm_compute; reflexivity).
  destruct (updateSale_not_found ex_world 42%N
              (replace_fields None None (Some [])) Hn) as [H1 H2].
  split; [exact H1 |]. apply H2. intros message. simpl. discriminate.
Defined.

(** X8: whether a second sending of the same update changes anything
    depends on the payload.  After an update of plain field replacements
    that answered 200, the same update again answers with the same document
    and leaves the sale collection as the first one left it.  After a
    [$push] of a line item that answered 200 with a document, the same
    update again appends the line item once more: the answer and the stored
    sale are that document with the line item at the end. *)
Theorem updateSale_twice (w : World) (id : N) (r : Response) (w1 : World) :
  status r = 200 ->
  (forall message, head (faults w1) <> Some (Some message)) ->
  (forall u d l,
     let body := replace_fields u d l in
     updateSale id body w = (r, w1) ->
     (updateSale id body w1).1 = r /\
     Sales (updateSale id body w1).2 = Sales w1) /\
  (forall li,
     let body := push_item li in
     updateSale id body w = (r, w1) ->
     exists sale,
       let sale' :=
         mkSale (sale_id sale) (user_id sale) (date sale)
                (items sale ++ [li]) in
       r = mkResponse 200 (JSale sale) /\
       (updateSale id body w1).1 = mkResponse 200 (JSale sale') /\
       Sales (updateSale id body w1).2 !! id = Some sale').
Proof.
  intros Hr Hp. split.
  - intros u d l body Hu.
    destruct (HandlerFacts.updateSale_updated _ _ _ _ _ Hu Hr)
      as (sale & Hs & -> & HS & _ & _ & Hc).
    rewrite ReconcileFacts.updateSale_run. cbv zeta.
    rewrite HS, lookup_insert_eq. unfold body.
    rewrite HandlerFacts.replace_fields_idem.
    destruct (head (faults w1)) as [[message |] |];
      [by destruct (Hp message) | |];
      simpl; by rewrite insert_insert_eq.
  - intros li body Hu.
    destruct (HandlerFacts.updateSale_updated _ _ _ _ _ Hu Hr)
      as (sale & Hs & -> & HS & _ & _ & Hc).
    exists (apply_update body (clock w) sale). cbv zeta.
    split; [done |].
    rewrite ReconcileFacts.updateSale_run. cbv zeta.
    rewrite HS, lookup_insert_eq.
    destruct (head (faults w1)) as [[message |] |];
      [by destruct (Hp message) | |];
      simpl; by rewrite lookup_insert_eq.
Qed.

Lemma updateSale_twice_witness :
  let body := replace_fields None None (Some [mkLineItem 2%N 9]) in
  let w := (createSale ex_body ex_world).2 in
  (updateSale 100%N body (updateSale 100%N body w).2).1
    = (updateSale 100%N body w).1 /\
  Sales (updateSale 100%N body (updateSale 100%N body w).2).2
    = Sales (updateSale 100%N body w).2.
Proof.
  intros body w.
  apply (proj1 (updateSale_twice w 100%N (updateSale 100%N body w).1
                  (updateSale 100%N body w).2
                  ltac:(vm_compute; reflexivity)
                  ltac:(intros message; vm_compute; discriminate))
           None None (Some [mkLineItem 2%N 9])).
  apply surjective_pairing.
Defined.

(** The same on the first worked example: [$push] of 9 of item B, sent
    twice to the sale of the example. *)
Example updateSale_push_twice :
  let body := push_item (mkLineItem 2%N 9) in
  let w := (createSale ex_body ex_world).2 in
  items <$> Sales (updateSale 100%N body w).2 !! 100%N
    = Some [mkLineItem 1%N 3; mkLineItem 2%N 2; mkLineItem 2%N 9] /\
  items <$> Sales (updateSale 100%N body (updateSale 100%N body w).2).2
              !! 100%N
    = Some [mkLineItem 1%N 3; mkLineItem 2%N 2; mkLineItem 2%N 9;
            mkLineItem 2%N 9].
Proof. vm_compute. split; reflexivity. Qed.

(** [$currentDate] on a sale that was given a date of its own: the date
    becomes the clock reading, the line items stay. *)
Example updateSale_current_date :
  let w := mkWorld (<[100%N := ex_sale_3_days]> ∅) ex_items ex_users []
                   ex_now utc 101%N in
  (updateSale 100%N current_date w).1
    = mkResponse 200 (JSale (mkSale 100%N 7%N ex_now [mkLineItem 1%N 4])) /\
  Items (updateSale 100%N current_date w).2 = Items w.
Proof. vm_compute. split; reflexivity. Qed.

(** X9: the stock follows the line items a sale holds when it is deleted,
    not those it was created with.  A sale created with line items [l],
    updated to line items [l'] and then deleted (201, 200, 200) leaves
    every item with its stock moved by what [l'] holds of it minus what
    [l] held of it. *)
Theorem update_then_delete_shifts_stock
  (w : World) (body : SaleInput) (sale : Sale) (w1 : World)
  (upd : SaleUpdate) (l' : list LineItem)
  (r2 r3 : Response) (w2 w3 : World) :
  createSale body w = (mkResponse 201 (JSale sale), w1) ->
  (forall now s, items (upd now s) = l') ->
  updateSale (sale_id sale) upd w1 = (r2, w2) -> status r2 = 200 ->
  deleteSale (sale_id sale) w2 = (r3, w3) -> status r3 = 200 ->
  forall id,
    stock_of w3 id =
    (fun s => s + (total_delta quantity id l'
                   - total_delta quantity id (in_items body)))
      <$> stock_of w id.
Proof.
  intros Hc Hl Hu Hr2 Hd Hr3 id.
  destruct (ReconcileFacts.createSale_created _ _ _ _ Hc) as (_ & _ & _ & HI1).
  destruct (HandlerFacts.updateSale_updated _ _ _ _ _ Hu Hr2)
    as (s & _ & _ & HS2 & HI2 & _).
  destruct (HandlerFacts.deleteSale_deleted _ _ _ _ Hd Hr3)
    as (s' & Hs' & _ & HI3).
  rewrite HS2, lookup_insert_eq in Hs'. injection Hs' as <-.
  unfold apply_update in HI3. simpl in HI3. rewrite Hl in HI3.
  unfold stock_of. rewrite HI3, HI2, HI1.
  rewrite !HandlerFacts.apply_deltas_stock, ReconcileFacts.total_delta_opp.
  destruct (Items w !! id); simpl; [f_equal; lia | done].
Qed.

Lemma update_then_delete_shifts_stock_witness :
  let upd := replace_fields None None (Some [mkLineItem 1%N 1]) in
  let w1 := (createSale ex_body ex_world).2 in
  let w2 := (updateSale 100%N upd w1).2 in
  stock_of (deleteSale 100%N w2).2 1%N =
  (fun s => s + (total_delta quantity 1%N [mkLineItem 1%N 1]
                 - total_delta quantity 1%N (in_items ex_body)))
    <$> stock_of ex_world 1%N.
Proof.
  intros upd w1 w2.
  apply (update_then_delete_shifts_stock ex_world ex_body
           (sale_of ex_world ex_body) w1 upd [mkLineItem 1%N 1]
           (updateSale 100%N upd w1).1 (deleteSale 100%N w2).1 w2
           (deleteSale 100%N w2).2).
  - vm_compute. reflexivity.
  - intros now s. reflexivity.
  - apply surjective_pairing.
  - vm_compute. reflexivity.
  - apply surjective_pairing.
  - vm_compute. reflexivity.
Defined.

(** X10: a creation that answers 201 keeps the ledger of every item: what
    the item has in stock plus what the stored sales hold of it is the
    same before and after. *)
Theorem createSale_keeps_ledger
  (w : World) (body : SaleInput) (sale : Sale) (w1 : World) :
  createSale body w = (mkResponse 201 (JSale sale), w1) ->
  forall id, ledger w1 id = ledger w id.
Proof.
  intros Hc id.
  destruct (ReconcileFacts.createSale_created _ _ _ _ Hc)
    as (Hs & Hn & HS & HI).
  apply (HandlerFacts.ledger_eq w w1 id
           (- total_delta quantity id (in_items body))
           (total_delta quantity id (in_items body))); [| | lia].
  - unfold stock_of. rewrite HI, HandlerFacts.apply_deltas_stock.
    by rewrite ReconcileFacts.total_delta_opp.
  - unfold sold_total. rewrite HS, HandlerFacts.sold_in_insert by done.
    rewrite Hs. simpl. lia.
Qed.

Lemma createSale_keeps_ledger_witness :
  ledger (createSale ex_body ex_world).2 1%N = ledger ex_world 1%N.
Proof.
  apply (createSale_keeps_ledger ex_world ex_body (sale_of ex_world ex_body)).
  vm_compute. reflexivity.
Defined.

(** X11: a deletion that answers 200 keeps the ledger of every item. *)
Theorem deleteSale_keeps_ledger
  (w : World) (id : N) (r : Response) (w1 : World) :
  deleteSale id w = (r, w1) ->
  status r = 200 ->
  forall i, ledger w1 i = ledger w i.
Proof.
  intros Hd Hr i.
  destruct (HandlerFacts.deleteSale_deleted _ _ _ _ Hd Hr)
    as (sale & Hs & HS & HI).
  apply (HandlerFacts.ledger_eq w w1 i
           (total_delta quantity i (items sale))
           (- total_delta quantity i (items sale))); [| | lia].
  - unfold stock_of. rewrite HI. apply HandlerFacts.apply_deltas_stock.
  - unfold sold_total. rewrite HS.
    rewrite (HandlerFacts.sold_in_delete i (Sales w) id sale Hs). lia.
Qed.

Lemma deleteSale_keeps_ledger_witness :
  let w := (createSale ex_body ex_world).2 in
  ledger (deleteSale 100%N w).2 1%N = ledger w 1%N.
Proof.
  apply (deleteSale_keeps_ledger (createSale ex_body ex_world).2 100%N
           (deleteSale 100%N (createSale ex_body ex_world).2).1).
  - apply surjective_pairing.
  - vm_compute. reflexivity.
Defined.

(** X12: reading a sale right after it was created gives back what was
    sent (user, date or the creation time, the line items with their
    quantities, in order), and each line item shows its item as the
    creation left it, with the stock already taken off. *)
Theorem getSaleById_after_createSale
  (w : World) (body : SaleInput) (sale : Sale) (w1 : World) :
  createSale body w = (mkResponse 201 (JSale sale), w1) ->
  (forall message, head (faults w1) <> Some (Some message)) ->
  (getSaleById (sale_id sale) w1).1 =
  mkReadResponse 200
    (JPopulatedSale
       (mkPopulatedSale
          (next_oid w) (UserRef (in_user_id body))
          (default (clock w) (in_date body))
          ((fun li =>
              mkPopulatedLineItem
                (pair (item_id li)
                   <$> (inc_stock
                          (- total_delta quantity (item_id li) (in_items body))
                          <$> Items w !! item_id li))
                (quantity li)) <$> in_items body))).
Proof.
  intros Hc Hp.
  destruct (ReconcileFacts.createSale_created _ _ _ _ Hc)
    as (Hs & _ & HS & HI).
  rewrite HandlerFacts.getSaleById_run.
  rewrite HS, Hs. simpl sale_id. rewrite lookup_insert_eq.
  destruct (head (faults w1)) as [[message |] |];
    [by destruct (Hp message) | |];
    simpl; do 2 f_equal; unfold populate_items; simpl; f_equal;
    apply list_fmap_ext; intros k li _; unfold populate_line;
    by rewrite HI, ReconcileFacts.apply_deltas_lookup,
      ReconcileFacts.total_delta_opp.
Qed.

Lemma getSaleById_after_createSale_witness :
  (getSaleById 100%N (createSale ex_body ex_world).2).1 =
  mkReadResponse 200
    (JPopulatedSale
       (mkPopulatedSale
          100%N (UserRef 7%N) ex_now
          ((fun li =>
              mkPopulatedLineItem
                (pair (item_id li)
                   <$> (inc_stock
                          (- total_delta quantity (item_id li)
                               (in_items ex_body))
                          <$> Items ex_world !! item_id li))
                (quantity li)) <$> in_items ex_body))).
Proof.
  apply (getSaleById_after_createSale ex_world ex_body
           (sale_of ex_world ex_body) (createSale ex_body ex_world).2).
  - vm_compute. reflexivity.
  - intros message. vm_compute. discriminate.
Defined.

(** X13: a stored sale is read with 200 whatever has become of its items:
    a line item whose item is no longer in the collection shows [null] in
    its place (and only such a line item does), and every line item keeps
    its quantity.  Unlike the report, the read does not fail on it. *)
Theorem getSaleById_missing_item
  (w : World) (id : N) (s : Sale) :
  Sales w !! id = Some s ->
  (forall message, head (faults w) <> Some (Some message)) ->
  exists p,
    (getSaleById id w).1 = mkReadResponse 200 (JPopulatedSale p) /\
    line_quantity <$> populated_items p = quantity <$> items s /\
    forall k li, items s !! k = Some li ->
      exists pl, populated_items p !! k = Some pl /\
                 (line_item pl = None <-> Items w !! item_id li = None).
Proof.
  intros Hs Hp. exists (populate_items w s).
  rewrite HandlerFacts.getSaleById_run, Hs.
  split; [| split].
  - destruct (head (faults w)) as [[message |] |]; try done.
    by destruct (Hp message).
  - unfold populate_items; simpl. rewrite <- list_fmap_compose.
    by apply list_fmap_ext.
  - intros k li Hk. exists (populate_line w li). split.
    + unfold populate_items; simpl. by rewrite list_lookup_fmap, Hk.
    + unfold populate_line; simpl. by destruct (Items w !! item_id li).
Qed.

Lemma getSaleById_missing_item_witness :
  exists p,
    (getSaleById 100%N ex_world_item_gone).1
      = mkReadResponse 200 (JPopulatedSale p) /\
    line_quantity <$> populated_items p = [4] /\
    forall k li, [mkLineItem 9%N 4] !! k = Some li ->
      exists pl, populated_items p !! k = Some pl /\
                 (line_item pl = None <->
                  Items ex_world_item_gone !! item_id li = None).
Proof.
  apply (getSaleById_missing_item ex_world_item_gone 100%N
           (mkSale 100%N 7%N (ex_now - 3 * EcmaDate.msPerDay)
                   [mkLineItem 9%N 4])).
  - vm_compute. reflexivity.
  - intros message. vm_compute. discriminate.
Defined.

(** X14: when the query goes through, [getAllSales] answers 200 with one
    document per stored sale and no other.  The document of a sale has its
    [_id] and its date; in place of [user_id], the [_id] and the name of
    the user it refers to, or [null] when there is no such user; and the
    line items of the sale in their order, each with its quantity and, in
    place of [item_id], the item it refers to as it is now in the
    collection, or [null] when the item is gone. *)
Theorem getAllSales_lists_every_sale (w : World) :
  (forall message, head (faults w) <> Some (Some message)) ->
  exists sales,
    (getAllSales w).1 = mkReadResponse 200 (JSales sales) /\
    length sales = size (Sales w) /\
    forall p, p ∈ sales <->
      exists id s,
        Sales w !! id = Some s /\
        p = mkPopulatedSale
              (sale_id s)
              (UserDoc (match Users w !! user_id s with
                        | Some user => Some (user_id s, user)
                        | None => None
                        end))
              (date s)
              ((fun li =>
                  mkPopulatedLineItem
                    (match Items w !! item_id li with
                     | Some item => Some (item_id li, item)
                     | None => None
                     end)
                    (quantity li)) <$> items s).
Proof.
  intros Hp.
  exists (populate_items_and_user w <$> (snd <$> map_to_list (Sales w))).
  rewrite HandlerFacts.getAllSales_run. split; [| split].
  - destruct (head (faults w)) as [[message |] |]; try done.
    by destruct (Hp message).
  - by rewrite !length_fmap, length_map_to_list.
  - intros p. rewrite list_elem_of_fmap. split.
    + intros (s & -> & Hin). apply list_elem_of_fmap in Hin
        as ([id s'] & -> & Hin). apply elem_of_map_to_list in Hin.
      exists id, s'. split; [done |]. reflexivity.
    + intros (id & s & Hs & ->). exists s. split; [reflexivity |].
      apply list_elem_of_fmap. exists (id, s). split; [done |].
      by apply elem_of_map_to_list.
Qed.

Lemma getAllSales_lists_every_sale_witness :
  let w := (createSale ex_body ex_world).2 in
  exists sales,
    (getAllSales w).1 = mkReadResponse 200 (JSales sales) /\
    length sales = 1%nat /\
    mkPopulatedSale 100%N (UserDoc (Some (7%N, mkUser "U1"))) ex_now
      [mkPopulatedLineItem (Some (1%N, mkItem "A" 7 "Acme" 2)) 3;
       mkPopulatedLineItem (Some (2%N, mkItem "B" 3 "Acme" 1)) 2]
    ∈ sales.
Proof.
  intros w.
  destruct (getAllSales_lists_every_sale w
              ltac:(intros message; vm_compute; discriminate))
    as (sales & Hr & Hl & Hin).
  exists sales. split; [exact Hr |]. split; [rewrite Hl; reflexivity |].
  apply Hin. exists 100%N, (sale_of ex_world ex_body).
  split; vm_compute; reflexivity.
Defined.

(** X15: the three read handlers write to none of the collections,
    whatever they answer. *)
Theorem read_handlers_write_nothing (w : World) (id : N) :
  (Sales (getAllSales w).2 = Sales w /\
   Items (getAllSales w).2 = Items w /\
   Users (getAllSales w).2 = Users w) /\
  (Sales (getSaleById id w).2 = Sales w /\
   Items (getSaleById id w).2 = Items w /\
   Users (getSaleById id w).2 = Users w) /\
  (Sales (getFrequentlySoldItems w).2 = Sales w /\
   Items (getFrequentlySoldItems w).2 = Items w /\
   Users (getFrequentlySoldItems w).2 = Users w).
Proof.
  rewrite HandlerFacts.getAllSales_run, HandlerFacts.getSaleById_run.
  split; [done |]. split; [done |].
  apply HandlerFacts.getFrequentlySoldItems_frame.
Qed.

(** X16: the three bounds, for every clock reading, in a zone whose
    offsets are never more than [d] apart, [d] at most a day.  The weekly
    bound is 7 days back plus the offset at the clock reading minus the
    offset at the bound, so within [d] of 7 days back; the monthly one is
    28 to 31 days back and the yearly one 365 or 366 days back, each up to
    [d]; the windows are nested, the yearly one starting first, and all
    three start before the clock reading.  Where the offset never changes
    ([d] is 0) the distances are exact. *)
Theorem report_window_bounds (tza : EcmaDate.TimeZone) (d now : Z) :
  EcmaDate.zone_spread tza d ->
  d <= EcmaDate.msPerDay ->
  pastWeek tza now
    = now - 7 * EcmaDate.msPerDay
      + (tza now true
         - tza (EcmaDate.LocalTime tza now - 7 * EcmaDate.msPerDay) false) /\
  now - 7 * EcmaDate.msPerDay - d <= pastWeek tza now
                                  <= now - 7 * EcmaDate.msPerDay + d /\
  now - 31 * EcmaDate.msPerDay - d <= pastMonth tza now
                                   <= now - 28 * EcmaDate.msPerDay + d /\
  now - 366 * EcmaDate.msPerDay - d <= pastYear tza now
                                    <= now - 365 * EcmaDate.msPerDay + d /\
  pastYear tza now < pastMonth tza now < pastWeek tza now /\
  pastWeek tza now < now.
Proof.
  intros Hz Hd.
  destruct (HandlerFacts.report_window_bounds_aux tza d now Hz Hd)
    as ((Hw & Hm & Hy) & Hym & Hmw & Hwn).
  split; [unfold pastWeek; apply EcmaDateFacts.setDate_back |].
  split; [exact Hw |]. split; [exact Hm |]. split; [exact Hy |].
  split; [split; [exact Hym | exact Hmw] | exact Hwn].
Qed.

Lemma report_window_bounds_witness :
  pastWeek ex_zone_dst ex_now_dst
    = ex_now_dst - 7 * EcmaDate.msPerDay + 3600000 /\
  pastMonth ex_zone_dst ex_now_dst
    = ex_now_dst - 28 * EcmaDate.msPerDay + 3600000 /\
  pastYear ex_zone_dst ex_now_dst < pastMonth ex_zone_dst ex_now_dst
                                  < pastWeek ex_zone_dst ex_now_dst /\
  pastWeek utc ex_now = ex_now - 7 * EcmaDate.msPerDay.
Proof.
  assert (EcmaDate.zone_spread utc 0) as Hu
    by (intros t t' b b'; unfold utc, EcmaDate.fixed_zone; lia).
  assert (EcmaDate.zone_spread ex_zone_dst 3600000) as Hz
    by (intros t t' b b'; unfold ex_zone_dst; cbv zeta;
        destruct (_ && _), (_ && _); lia).
  pose proof (report_window_bounds ex_zone_dst 3600000 ex_now_dst Hz
                ltac:(vm_compute; discriminate)) as (H1 & _ & _ & _ & H2 & _).
  pose proof (report_window_bounds utc 0 ex_now Hu
                ltac:(vm_compute; discriminate)) as (H3 & _).
  split; [rewrite H1; vm_compute; reflexivity |].
  split; [vm_compute; reflexivity |].
  split; [exact H2 |].
  rewrite H3. vm_compute. reflexivity.
Defined.

(** The other way round after the clocks went back: at 2026-11-03T12:00:00Z
    in the zone of the example the weekly bound is 7 days and an hour
    back, the monthly one 31 days and an hour. *)
Example report_window_bounds_autumn :
  let now := 1793707200000 in
  pastWeek ex_zone_dst now = now - 7 * EcmaDate.msPerDay - 3600000 /\
  pastMonth ex_zone_dst now = now - 31 * EcmaDate.msPerDay - 3600000.
Proof. vm_compute. split; reflexivity. Qed.

(** X17: the windows are nested in what they show, in every zone whose
    offsets are never more than a day apart.  A pair (item, user) with a
    row in the weekly list has one in the monthly list, and a pair with a
    row in the monthly list has one in the yearly list; when no line item
    has a negative quantity, the total of a pair grows from the weekly to
    the monthly to the yearly list. *)
Theorem report_windows_nested
  (tza : EcmaDate.TimeZone) (spread now : Z) (docs : list Sale) (i u : N) :
  EcmaDate.zone_spread tza spread ->
  spread <= EcmaDate.msPerDay ->
  let F := report_facets tza now docs in
  (forall t, mkRow i u t ∈ weekly F -> exists t', mkRow i u t' ∈ monthly F) /\
  (forall t, mkRow i u t ∈ monthly F -> exists t', mkRow i u t' ∈ yearly F) /\
  ((forall s li, s ∈ docs -> li ∈ items s -> 0 <= quantity li) ->
   facet_total (weekly F) i u <= facet_total (monthly F) i u
                              <= facet_total (yearly F) i u).
Proof.
  intros Hz Hd F. subst F. unfold report_facets, pipeline.
  cbn [weekly monthly yearly].
  destruct (HandlerFacts.report_window_bounds_aux tza spread now Hz Hd)
    as (_ & Hym%Z.lt_le_incl & Hmw%Z.lt_le_incl & _).
  clear Hz Hd.
  set (bw := pastWeek tza now) in *. set (bm := pastMonth tza now) in *.
  set (by_ := pastYear tza now) in *. clearbody bw bm by_.
  assert (forall b1 b2 t, b2 <= b1 ->
            mkRow i u t ∈ facet b1 (unwind docs) ->
            exists t', mkRow i u t' ∈ facet b2 (unwind docs)) as Hrow.
  { intros b1 b2 t Hb Hin. apply ReportFacts.facet_row_iff in Hin.
    rewrite ReportFacts.group_sum_lookup in Hin.
    case_decide as Hk; [| discriminate].
    apply list_elem_of_fmap in Hk as (d & Hd & Hk).
    eexists. apply ReportFacts.facet_row_iff.
    rewrite ReportFacts.group_sum_lookup. apply decide_True.
    rewrite Hd. apply list_elem_of_fmap_2.
    by apply (HandlerFacts.match_date_gte_mono b1). }
  split; [intros t; by apply Hrow |].
  split; [intros t; by apply Hrow |].
  intros Hq. rewrite !ReportFacts.facet_total_facet.
  assert (forall d, d ∈ unwind docs -> 0 <= quantity (u_items d)) as Hq'.
  { intros d Hd.
    apply HandlerFacts.unwind_elem_inv in Hd as (s & li & Hs & Hli & ->).
    simpl. by apply (Hq s). }
  pose proof (HandlerFacts.sum_quantity_mono (i, u) bw bm _ Hmw Hq').
  pose proof (HandlerFacts.sum_quantity_mono (i, u) bm by_ _ Hym Hq').
  lia.
Qed.

Lemma report_windows_nested_witness :
  let F := report_facets utc ex_now [ex_sale_3_days; ex_sale_40_days] in
  facet_total (weekly F) 1%N 7%N <= facet_total (monthly F) 1%N 7%N
                                 <= facet_total (yearly F) 1%N 7%N.
Proof.
  assert (EcmaDate.zone_spread utc 0) as Hu
    by (intros t t' b b'; unfold utc, EcmaDate.fixed_zone; lia).
  apply (proj2 (proj2 (report_windows_nested utc 0 ex_now
                         [ex_sale_3_days; ex_sale_40_days] 1%N 7%N
                         Hu ltac:(vm_compute; discriminate)))).
  intros s li Hs Hli.
  apply elem_of_cons in Hs as [-> | Hs];
    [| apply list_elem_of_singleton in Hs as ->];
    apply list_elem_of_singleton in Hli as ->; simpl; lia.
Defined.

(** X18: when no stored sale has a line item (the collection may be
    empty), and the store answers every call, the report is a 200 with
    three empty lists. *)
Theorem report_without_line_items (w : World) :
  faults w = [] ->
  (forall id s, Sales w !! id = Some s -> items s = []) ->
  (getFrequentlySoldItems w).1 = mkResponse 200 (JReport [] [] []).
Proof.
  intros Hf Hs.
  rewrite (ReportFacts.getFrequentlySoldItems_healthy w Hf). cbv zeta.
  unfold report_facets, pipeline.
  rewrite HandlerFacts.unwind_no_items; [done |].
  intros s Hin. apply list_elem_of_fmap in Hin as ([id s'] & -> & Hin).
  apply elem_of_map_to_list in Hin. by apply (Hs id).
Qed.

Lemma report_without_line_items_witness :
  (getFrequentlySoldItems ex_world).1 = mkResponse 200 (JReport [] [] []).
Proof.
  apply (report_without_line_items ex_world).
  - reflexivity.
  - intros id s Hs. vm_compute in Hs. discriminate Hs.
Defined.

(** X19: when the store answers every call and every row of the three
    facets has its item in the collection, the report is a 200 whose three
    lists have one entry per row, in the order of the rows, each with the
    [_id] of the item, the total of the row and the stock the item has at
    the time of the report. *)
Theorem report_entries (w : World) :
  let F := report_facets (LocalTZA w) (clock w)
                         (snd <$> map_to_list (Sales w)) in
  let shows (r : Row) (e : ReportEntry) :=
    entry_id e = row_item_id r /\
    entry_totalQuantitySold e = totalQuantitySold r /\
    stock_of w (row_item_id r) = Some (entry_stock e) in
  faults w = [] ->
  (forall win r, r ∈ window_rows F win -> is_Some (Items w !! row_item_id r)) ->
  exists ew em ey,
    (getFrequentlySoldItems w).1 = mkResponse 200 (JReport ew em ey) /\
    Forall2 shows (weekly F) ew /\
    Forall2 shows (monthly F) em /\
    Forall2 shows (yearly F) ey.
Proof.
  intros F shows Hf Hit.
  pose proof (ReportFacts.getFrequentlySoldItems_healthy w Hf) as Hh.
  cbv zeta in Hh. fold F in Hh. clearbody F.
  destruct (HandlerFacts.mapM_entry_of w (weekly F) (Hit Weekly))
    as (ew & Hw & HFw).
  destruct (HandlerFacts.mapM_entry_of w (monthly F) (Hit Monthly))
    as (em & Hm & HFm).
  destruct (HandlerFacts.mapM_entry_of w (yearly F) (Hit Yearly))
    as (ey & Hy & HFy).
  exists ew, em, ey. rewrite Hh, Hw, Hm, Hy. done.
Qed.

Lemma report_entries_witness :
  let w := mkWorld (<[100%N := ex_sale_3_days]> ∅) ex_items ex_users []
                   ex_now utc 101%N in
  let F := report_facets (LocalTZA w) (clock w)
                         (snd <$> map_to_list (Sales w)) in
  let shows (r : Row) (e : ReportEntry) :=
    entry_id e = row_item_id r /\
    entry_totalQuantitySold e = totalQuantitySold r /\
    stock_of w (row_item_id r) = Some (entry_stock e) in
  exists ew em ey,
    (getFrequentlySoldItems w).1 = mkResponse 200 (JReport ew em ey) /\
    Forall2 shows (weekly F) ew /\
    Forall2 shows (monthly F) em /\
    Forall2 shows (yearly F) ey.
Proof.
  intros w F shows.
  apply (report_entries w).
  - reflexivity.
  - intros win r Hr.
    assert (r = mkRow 1%N 7%N 4) as ->.
    { destruct win; vm_compute in Hr;
        by apply list_elem_of_singleton in Hr. }
    vm_compute. eexists; reflexivity.
Defined.

(** X23: when the lookup of a handler is rejected by the store,
    [updateSale] answers 400 and [deleteSale], [getAllSales] and
    [getSaleById] answer 500, each with the message of the error, and
    neither the sales nor the items are written. *)
Theorem lookup_rejected
  (w : World) (id : N) (body : SaleUpdate) (message : string) :
  head (faults w) = Some (Some message) ->
  ((updateSale id body w).1 = mkResponse 400 (JMessage message) /\
   Sales (updateSale id body w).2 = Sales w) /\
  ((deleteSale id w).1 = mkResponse 500 (JMessage message) /\
   Sales (deleteSale id w).2 = Sales w /\
   Items (deleteSale id w).2 = Items w) /\
  (getAllSales w).1 = mkReadResponse 500 (JReadMessage message) /\
  (getSaleById id w).1 = mkReadResponse 500 (JReadMessage message).
Proof.
  intros Hf.
  rewrite ReconcileFacts.updateSale_run, ReconcileFacts.deleteSale_run,
    HandlerFacts.getAllSales_run, HandlerFacts.getSaleById_run.
  cbv zeta. by rewrite Hf.
Qed.

Lemma lookup_rejected_witness :
  let w := with_faults [Some "pool destroyed"]
                       (createSale ex_body ex_world).2 in
  let body := replace_fields None None (Some []) in
  ((updateSale 100%N body w).1 = mkResponse 400 (JMessage "pool destroyed") /\
   Sales (updateSale 100%N body w).2 = Sales w) /\
  ((deleteSale 100%N w).1 = mkResponse 500 (JMessage "pool destroyed") /\
   Sales (deleteSale 100%N w).2 = Sales w /\
   Items (deleteSale 100%N w).2 = Items w) /\
  (getAllSales w).1 = mkReadResponse 500 (JReadMessage "pool destroyed") /\
  (getSaleById 100%N w).1 = mkReadResponse 500 (JReadMessage "pool destroyed").
Proof.
  apply (lookup_rejected
           (with_faults [Some "pool destroyed"] (createSale ex_body ex_world).2)
           100%N (replace_fields None None (Some [])) "pool destroyed").
  reflexivity.
Defined.

(** X24: the report makes four calls to the store (the aggregation and
    three populations) before it formats anything; when one of them is
    rejected, the answer is 500 with the message of that error. *)
Theorem report_store_rejection
  (w : World) (k : nat) (message : string) (rest : list (option string)) :
  faults w = replicate k None ++ Some message :: rest ->
  (k < 4)%nat ->
  (getFrequentlySoldItems w).1 = mkResponse 500 (JMessage message).
Proof.
  intros Hf Hk.
  destruct (getFrequentlySoldItems w) as [r w'] eqn:E.
  unfold getFrequentlySoldItems, try_catch in E.
  unfold bind at 1, new_Date in E. unfold bind at 1, local_tza in E.
  unfold bind at 1 in E. rewrite ReportFacts.Sale_aggregate_run in E.
  set (F := pipeline _ _ _ _) in E. clearbody F. cbn [fst].
  rewrite Hf in E.
  destruct k as [| [| [| [| k]]]]; [| | | | lia];
    cbn [replicate app head tail] in E;
    repeat (unfold bind at 1 in E; rewrite ReportFacts.Sale_populate_run in E;
            cbn [faults with_faults head tail] in E);
    by injection E as <- _.
Qed.

Lemma report_store_rejection_witness :
  (getFrequentlySoldItems
     (with_faults [None; None; Some "cursor lost"] ex_world_item_gone)).1
  = mkResponse 500 (JMessage "cursor lost").
Proof.
  apply (report_store_rejection
           (with_faults [None; None; Some "cursor lost"] ex_world_item_gone)
           2 "cursor lost" []).
  - reflexivity.
  - lia.
Defined.

(** X25: what a window of the report shows.  A pair (item, user) has a
    row exactly when a sale of that user dated inside the window has a
    line item for that item, and the total of the row is the sum of the
    quantities of all such line items. *)
Theorem report_row_characterised
  (tza : EcmaDate.TimeZone) (now : Z) (win : Window) (docs : list Sale)
  (i u : N) (t : Z) :
  let bound := lower_bound tza now win in
  mkRow i u t ∈ window_rows (report_facets tza now docs) win <->
  (exists s li, s ∈ docs /\ li ∈ items s /\ item_id li = i /\
                user_id s = u /\ bound <= date s) /\
  t = sum_quantity (i, u) (match_date_gte bound (unwind docs)).
Proof.
  intros bound. rewrite ReportFacts.window_rows_report_facets. fold bound.
  clearbody bound. rewrite <- HandlerFacts.facet_row_exists.
  rewrite ReportFacts.facet_row_iff, ReportFacts.group_sum_lookup.
  split.
  - intros Ht. case_decide as Hk; [| discriminate]. injection Ht as <-.
    split; [| done]. eexists. apply ReportFacts.facet_row_iff.
    rewrite ReportFacts.group_sum_lookup. by apply decide_True.
  - intros [[t' Ht'] ->]. apply ReportFacts.facet_row_iff in Ht'.
    rewrite ReportFacts.group_sum_lookup in Ht'.
    by case_decide.
Qed.

(** X26: a sale created without a date is dated by the clock, and a
    report run at that clock reading shows each of its line items in the
    weekly, the monthly and the yearly list, in every zone whose offsets
    are never more than a day apart. *)
Theorem created_sale_is_reported
  (w : World) (spread : Z) (body : SaleInput) (sale : Sale) (w1 : World)
  (li : LineItem) (win : Window) :
  EcmaDate.zone_spread (LocalTZA w) spread ->
  spread <= EcmaDate.msPerDay ->
  createSale body w = (mkResponse 201 (JSale sale), w1) ->
  in_date body = None ->
  li ∈ in_items body ->
  exists t,
    mkRow (item_id li) (in_user_id body) t
    ∈ window_rows (report_facets (LocalTZA w1) (clock w1)
                                 (snd <$> map_to_list (Sales w1))) win.
Proof.
  intros Hz Hsp Hc Hd Hli.
  destruct (ReconcileFacts.createSale_created _ _ _ _ Hc)
    as (Hs & Hn & HS & _).
  destruct (HandlerFacts.createSale_created_clock _ _ _ _ Hc) as [-> ->].
  rewrite ReportFacts.window_rows_report_facets.
  apply HandlerFacts.facet_row_exists.
  exists (sale_of w body), li.
  split; [| split; [done | split; [done | split; [done |]]]].
  - apply list_elem_of_fmap. exists (next_oid w, sale_of w body).
    split; [done |]. apply elem_of_map_to_list.
    rewrite HS, Hs. apply lookup_insert_eq.
  - simpl. rewrite Hd. simpl.
    pose proof (HandlerFacts.report_window_bounds_aux
                  (LocalTZA w) spread (clock w) Hz Hsp) as (_ & H1 & H2 & H3).
    destruct win; unfold lower_bound; lia.
Qed.

Lemma created_sale_is_reported_witness :
  exists t,
    mkRow 2%N 7%N t
    ∈ window_rows
        (report_facets (LocalTZA (createSale ex_body ex_world).2)
           (clock (createSale ex_body ex_world).2)
           (snd <$> map_to_list (Sales (createSale ex_body ex_world).2)))
        Monthly.
Proof.
  apply (created_sale_is_reported ex_world 0 ex_body
           (sale_of ex_world ex_body) (createSale ex_body ex_world).2
           (mkLineItem 2%N 2) Monthly).
  - intros t t' b b'. simpl. unfold utc, EcmaDate.fixed_zone. lia.
  - vm_compute. discriminate.
  - vm_compute. reflexivity.
  - reflexivity.
  - apply list_elem_of_further, list_elem_of_here.
Defined.

(** ** The attendance router *)
Module RouterFacts.
Import AttendanceRoutes.

Lemma exact_match_length pat segs c :
  exact_match pat segs = Some c -> length segs = length pat.
Proof.
  revert segs c; induction pat as [| p pat IH]; intros [| s segs] c;
    simpl; try discriminate; [done |].
  destruct (seg_match p s); [| discriminate].
  destruct (exact_match pat segs) eqn:E; [| discriminate].
  intros _. f_equal. by eapply IH.
Qed.

(** The first segment of a path that matches a pattern starting with a
    literal is that literal, up to case. *)
Lemma exact_match_head text pat segs c :
  exact_match (Lit text :: pat) segs = Some c ->
  exists s segs', segs = s :: segs' /\ lower s = lower text.
Proof.
  destruct segs as [| s segs]; simpl; [discriminate |].
  case_bool_decide; [| discriminate]. intros _. by exists s, segs.
Qed.

(** A pattern whose elements all need text matches no path that ends with
    a slash, as it is. *)
Lemma exact_match_trailing_slash pat segs :
  forallb needs_text pat = true ->
  exact_match pat (segs ++ [EmptyString]) = None.
Proof.
  revert segs; induction pat as [| p pat IH]; intros segs Hwf.
  - by destruct segs.
  - simpl in Hwf. apply andb_prop in Hwf as [Hp Hwf].
    destruct segs as [| s segs]; simpl.
    + destruct p as [text | name]; simpl in *.
      * apply negb_true_iff, bool_decide_eq_false in Hp.
        rewrite bool_decide_false; [done | congruence].
      * done.
    + rewrite (IH segs Hwf). by destruct (seg_match p s).
Qed.

Lemma last_removelast (segs : list string) x :
  last segs = Some x -> segs = removelast segs ++ [x].
Proof.
  intros Hl. destruct segs as [| s segs] using rev_ind; [done |].
  rewrite last_snoc in Hl. injection Hl as ->.
  by rewrite removelast_last.
Qed.

(** The trailing slash of a path is optional: a pattern is matched against
    the path without it. *)
Lemma path_match_strip pat segs :
  forallb needs_text pat = true ->
  path_match pat segs = exact_match pat (strip_slash segs).
Proof.
  intros Hwf. unfold path_match, strip_slash.
  destruct (last segs) as [[| c x] |] eqn:Hl.
  - rewrite (last_removelast _ _ Hl) at 1.
    rewrite exact_match_trailing_slash by done.
    by rewrite bool_decide_true.
  - rewrite bool_decide_false by done. by destruct (exact_match pat segs).
  - rewrite bool_decide_false by done. by destruct (exact_match pat segs).
Qed.

Lemma router_needs_text r :
  r ∈ router -> forallb needs_text (route_path r) = true.
Proof.
  unfold router. intros H.
  repeat (apply elem_of_cons in H as [-> | H]; [reflexivity |]).
  by apply elem_of_nil in H.
Qed.

(** No path matches the patterns of two routes. *)
Lemma router_exact_unique r1 r2 segs c1 c2 :
  r1 ∈ router -> r2 ∈ router ->
  exact_match (route_path r1) segs = Some c1 ->
  exact_match (route_path r2) segs = Some c2 ->
  r1 = r2.
Proof.
  unfold router. intros H1 H2 E1 E2.
  pose proof (exact_match_length _ _ _ E1) as L1.
  pose proof (exact_match_length _ _ _ E2) as L2.
  repeat (apply elem_of_cons in H1 as [-> | H1]);
    try (by apply elem_of_nil in H1);
    repeat (apply elem_of_cons in H2 as [-> | H2]);
    try (by apply elem_of_nil in H2);
    try reflexivity; simpl in L1, L2; try congruence;
    apply exact_match_head in E1 as (s1 & t1 & -> & Hs1);
    apply exact_match_head in E2 as (s2 & t2 & [= <- <-] & Hs2);
    rewrite Hs1 in Hs2; vm_compute in Hs2; discriminate Hs2.
Qed.

Lemma router_path_unique r1 r2 segs c1 c2 :
  r1 ∈ router -> r2 ∈ router ->
  path_match (route_path r1) segs = Some c1 ->
  path_match (route_path r2) segs = Some c2 ->
  r1 = r2.
Proof.
  intros H1 H2.
  rewrite !path_match_strip by (by apply router_needs_text).
  by apply router_exact_unique.
Qed.

Section Router.
Variable decodeURIComponent : string -> option string.

(** Once a layer could not decode its parameters, no handler runs. *)
Lemma handle_error stack m segs :
  handle decodeURIComponent stack m segs true = BadRequest.
Proof.
  induction stack as [| r stack IH]; [done |]. simpl.
  by destruct (layer_match decodeURIComponent (route_path r) segs).
Qed.

(** Layers whose patterns do not match the path are passed over. *)
Lemma handle_no_match stack m segs e :
  (forall r, r ∈ stack -> path_match (route_path r) segs = None) ->
  handle decodeURIComponent stack m segs e =
  if e then BadRequest else FallThrough.
Proof.
  induction stack as [| r stack IH]; intros H; [done |]. simpl.
  unfold layer_match. rewrite (H r) by left.
  apply IH. intros; apply H; by right.
Qed.

(** When one route only matches the path, it decides the outcome,
    wherever it stands among the layers. *)
Lemma handle_unique stack r m segs caps :
  r ∈ stack ->
  path_match (route_path r) segs = Some caps ->
  (forall r', r' ∈ stack ->
     path_match (route_path r') segs <> None -> r' = r) ->
  handle decodeURIComponent stack m segs false =
  outcome decodeURIComponent r m caps.
Proof.
  intros Hin Hr Hu. unfold outcome.
  assert (forall stack',
            (forall r', r' ∈ stack' ->
               path_match (route_path r') segs <> None -> r' = r) ->
            forall params,
              decode_params decodeURIComponent caps = Some params ->
              handles (route_method r) m = false ->
              handle decodeURIComponent stack' m segs false = FallThrough)
    as Hrest.
  { induction stack' as [| r' stack' IH]; intros Hu' params Hd Hh; [done |].
    simpl. unfold layer_match.
    destruct (path_match (route_path r') segs) as [caps' |] eqn:E.
    - assert (r' = r) as -> by (apply Hu'; [left | congruence]).
      rewrite Hr in E. injection E as <-. rewrite Hd, Hh.
      eapply IH; eauto. intros; apply Hu'; [by right | done].
    - eapply IH; eauto. intros; apply Hu'; [by right | done]. }
  induction stack as [| r' stack IH]; [by apply elem_of_nil in Hin |].
  simpl. unfold layer_match.
  destruct (path_match (route_path r') segs) as [caps' |] eqn:E.
  - assert (r' = r) as -> by (apply Hu; [left | congruence]).
    rewrite Hr in E. injection E as <-.
    destruct (decode_params decodeURIComponent caps) as [params |] eqn:Hd;
      [| apply handle_error].
    destruct (handles (route_method r) m) eqn:Hh; [done |].
    eapply Hrest; eauto. intros; apply Hu; [by right | done].
  - apply elem_of_cons in Hin as [-> | Hin]; [congruence |].
    apply IH; [done |]. intros; apply Hu; [by right | done].
Qed.

(** For patterns that need text, a slash added to a path that has none at
    its end changes no match. *)
Lemma handle_trailing_slash stack m segs e :
  (forall r, r ∈ stack -> forallb needs_text (route_path r) = true) ->
  last segs <> Some EmptyString ->
  handle decodeURIComponent stack m (segs ++ [EmptyString]) e =
  handle decodeURIComponent stack m segs e.
Proof.
  intros Hwf Hl. revert e.
  assert (strip_slash (segs ++ [EmptyString]) = segs) as E1.
  { unfold strip_slash. by rewrite last_snoc, removelast_last. }
  assert (strip_slash segs = segs) as E2.
  { unfold strip_slash. by destruct (last segs) as [[| c x] |]. }
  induction stack as [| r stack IH]; intros e; [done |].
  simpl. unfold layer_match.
  rewrite !path_match_strip, E1, E2 by (apply Hwf; left).
  destruct (exact_match (route_path r) segs) as [caps |];
    [| apply IH; intros; apply Hwf; by right].
  destruct (decode_params decodeURIComponent caps);
    [| apply IH; intros; apply Hwf; by right].
  destruct e; [apply IH; intros; apply Hwf; by right |].
  destruct (handles (route_method r) m); [done |].
  apply IH; intros; apply Hwf; by right.
Qed.

End Router.

Lemma split_on_slash_cons path : split_on_slash path <> [].
Proof.
  destruct path as [| c path]; [done |]. simpl.
  case_bool_decide; by destruct (split_on_slash path).
Qed.

Lemma split_on_slash_snoc path :
  split_on_slash (path +:+ "/") = split_on_slash path ++ [EmptyString].
Proof.
  induction path as [| c path IH]; [by vm_compute |]. simpl.
  pose proof (split_on_slash_cons path).
  case_bool_decide; rewrite IH; by destruct (split_on_slash path).
Qed.

Lemma segments_snoc path :
  segments (path +:+ "/") = segments path ++ [EmptyString].
Proof.
  unfold segments. rewrite split_on_slash_snoc.
  pose proof (split_on_slash_cons path).
  by destruct (split_on_slash path).
Qed.

End RouterFacts.

Import AttendanceRoutes.

(** X20: no two routes of the attendance router overlap: a path matches
    the pattern of one route at most, so no route shadows another,
    whatever the order of registration. *)
Theorem routes_do_not_overlap
  (path : string) (r1 r2 : Route) (c1 c2 : list (string * string)) :
  r1 ∈ router -> r2 ∈ router ->
  path_match (route_path r1) (segments path) = Some c1 ->
  path_match (route_path r2) (segments path) = Some c2 ->
  r1 = r2.
Proof.
  apply RouterFacts.router_path_unique.
Qed.

Lemma routes_do_not_overlap_witness :
  mkRoute GET [Lit "current-shift"] getCurrentShiftAttendance
  = mkRoute GET [Lit "current-shift"] getCurrentShiftAttendance.
Proof.
  apply (routes_do_not_overlap "/Current-Shift/" _ _ [] []).
  - unfold router. do 7 apply list_elem_of_further. apply list_elem_of_here.
  - unfold router. do 7 apply list_elem_of_further. apply list_elem_of_here.
  - vm_compute. reflexivity.
  - vm_compute. reflexivity.
Defined.

(** X21: the router answers a request by the one route whose pattern
    matches its path: the handler of that route runs, with the decoded
    parameters, when the route takes the method; the request falls
    through when it does not; it is a bad request, whatever the method,
    when a parameter cannot be decoded.  A path that matches no pattern
    falls through. *)
Theorem dispatch_by_the_matching_route
  (decodeURIComponent : string -> option string) (m : Method)
  (path : string) :
  (forall r caps, r ∈ router ->
     path_match (route_path r) (segments path) = Some caps ->
     dispatch decodeURIComponent m path = outcome decodeURIComponent r m caps)
  /\
  ((forall r, r ∈ router ->
      path_match (route_path r) (segments path) = None) ->
   dispatch decodeURIComponent m path = FallThrough).
Proof.
  split.
  - intros r caps Hr Hm. unfold dispatch.
    apply RouterFacts.handle_unique; [done | done |].
    intros r' Hr' Hm'.
    destruct (path_match (route_path r') (segments path)) as [caps' |] eqn:E;
      [| done].
    by apply (RouterFacts.router_path_unique r' r (segments path) caps' caps).
  - intros Hn. unfold dispatch.
    by rewrite RouterFacts.handle_no_match.
Qed.

Lemma dispatch_by_the_matching_route_witness :
  dispatch Some GET "/monthly/2026/11"
    = Invoke getAttendanceInMonth [("year", "2026"); ("month", "11")] /\
  dispatch (fun _ => None) POST "/employee/5" = BadRequest /\
  dispatch Some GET "/attendance" = FallThrough.
Proof.
  split; [| split].
  - apply (proj1 (dispatch_by_the_matching_route Some GET "/monthly/2026/11")
             (mkRoute GET [Lit "monthly"; Param "year"; Param "month"]
                      getAttendanceInMonth)
             [("year", "2026"); ("month", "11")]).
    + unfold router. do 8 apply list_elem_of_further. apply list_elem_of_here.
    + vm_compute. reflexivity.
  - apply (proj1 (dispatch_by_the_matching_route (fun _ => None) POST
                    "/employee/5")
             (mkRoute GET [Lit "employee"; Param "employeeId"]
                      getAttendanceByEmployee)
             [("employeeId", "5")]).
    + unfold router. do 4 apply list_elem_of_further. apply list_elem_of_here.
    + vm_compute. reflexivity.
  - apply (proj2 (dispatch_by_the_matching_route Some GET "/attendance")).
    intros r Hr. unfold router in Hr.
    repeat (apply elem_of_cons in Hr as [-> | Hr]; [by vm_compute |]).
    by apply elem_of_nil in Hr.
Defined.

(** X22: a slash added to the end of a path that has none changes nothing
    to the way the request is answered. *)
Theorem dispatch_trailing_slash
  (decodeURIComponent : string -> option string) (m : Method)
  (path : string) :
  last (segments path) <> Some EmptyString ->
  dispatch decodeURIComponent m (path +:+ "/")
  = dispatch decodeURIComponent m path.
Proof.
  intros Hl. unfold dispatch. rewrite RouterFacts.segments_snoc.
  apply RouterFacts.handle_trailing_slash; [| done].
  apply RouterFacts.router_needs_text.
Qed.

Lemma dispatch_trailing_slash_witness :
  dispatch Some PUT ("/approve-leave/17" +:+ "/")
  = dispatch Some PUT "/approve-leave/17".
Proof.
  apply (dispatch_trailing_slash Some PUT "/approve-leave/17").
  vm_compute. discriminate.
Defined.
